(** * HR-Report-Generator: the employee model and its text codec

    A shallow embedding of [employee.py] (the record classes, their
    validating property setters and [calc_pay]) and of the two methods
    of [gui.py] that persist the roster ([MainWindow.load_file] and
    [MainWindow.save_file]), with the theorems that settle what the
    specification says about them.

    The Qt table model and the forms of [gui.py] only display and
    edit records through the setters modelled here; they are left out.

    Conventions.
    - A Python [float] is a binary64 number: Rocq's primitive [float].
    - A Python [int] is a [Z].
    - A Python [str] is a [string]; its characters are the 8-bit ones.
    - Code that raises returns [Raise e]; the state it changed before
      raising is kept, as in Python.  A computation is a function from
      the state to a result and the state after it ([M]). *)

From Stdlib Require Import ZArith List String Ascii Bool Lia DecimalString Sorted.
From Stdlib Require Import Floats.PrimFloat Floats.FloatOps Floats.SpecFloat.
Import ListNotations.

Set Warnings "-inexact-float".

Local Open Scope string_scope.
Local Open Scope list_scope.
Local Open Scope Z_scope.

(* ================================================================= *)
(** ** Exceptions, results and stateful computations *)

Module Py.

(** The exceptions the modelled code can raise.  [ValueError] is raised
    by the setters of [employee.py] and by the built-ins [float] and
    [int]; the two [Invalid...Exception] classes are declared in
    [employee.py]; [IndexError] comes from [row[i]]; [UnboundLocalError]
    from reading a local variable no branch has bound; [csv_Error] from
    the reader of the [csv] module.  In the words of the specification,
    [ValueError] is its InvalidField, the two [Invalid...Exception]
    classes are its InvalidCategory and [IndexError] its
    IndexOutOfRange; the code has no class for its MalformedRecord. *)
Inductive exn : Type :=
| ValueError (message : string)
| InvalidRoleException (message : string)
| InvalidDepartmentException (message : string)
| IndexError (message : string)
| UnboundLocalError (variable : string)
| csv_Error (message : string).

Inductive result (A : Type) : Type :=
| Ok (a : A)
| Raise (e : exn).

Arguments Ok {A} a.
Arguments Raise {A} e.

(** A computation over a state [S]: the state is threaded through, and
    survives an exception. *)
Definition M (S A : Type) : Type := S -> result A * S.

Definition ret {S A : Type} (a : A) : M S A := fun s => (Ok a, s).

Definition raise {S A : Type} (e : exn) : M S A := fun s => (Raise e, s).

Definition bind {S A B : Type} (m : M S A) (k : A -> M S B) : M S B :=
  fun s =>
    match m s with
    | (Ok a, s') => k a s'
    | (Raise e, s') => (Raise e, s')
    end.

Definition get {S : Type} : M S S := fun s => (Ok s, s).

Definition put {S : Type} (s : S) : M S unit := fun _ => (Ok tt, s).

(** A pure fallible step inside a computation. *)
Definition lift {S A : Type} (r : result A) : M S A := fun s => (r, s).

(** Run a computation over a component of the state. *)
Definition zoom {S T A : Type} (proj : S -> T) (upd : S -> T -> S)
  (m : M T A) : M S A :=
  fun s => let (r, t) := m (proj s) in (r, upd s t).

Definition is_ok {A : Type} (r : result A) : bool :=
  match r with Ok _ => true | Raise _ => false end.

(** [for x in xs: body x]. *)
Fixpoint for_each {S A : Type} (xs : list A) (body : A -> M S unit) : M S unit :=
  match xs with
  | [] => ret tt
  | x :: rest => bind (body x) (fun _ => for_each rest body)
  end.

End Py.

Import Py.

Declare Scope py_scope.
Delimit Scope py_scope with py.
Notation "x <- m ;; k" := (bind m (fun x => k))
  (at level 61, m at next level, right associativity) : py_scope.
Notation "m ;; k" := (bind m (fun _ => k))
  (at level 61, right associativity) : py_scope.
Local Open Scope py_scope.

(** Unfolds the plumbing of a computation. *)
Ltac run := unfold bind, lift, ret, raise, get, put, zoom.

(* ================================================================= *)
(** ** Strings as Python sees them *)

Module Str.

(** [not s] for a string: true on the empty string only. *)
Definition is_blank (s : string) : bool :=
  match s with
  | EmptyString => true
  | String _ _ => false
  end.

(** [sub in s]: [sub] occurs in [s] as a contiguous run of characters,
    compared character by character (so case matters). *)
Fixpoint contains (sub s : string) : bool :=
  String.prefix sub s ||
  match s with
  | EmptyString => false
  | String _ rest => contains sub rest
  end.

(** The decimal text of an integer: [str(n)]. *)
Definition of_Z (n : Z) : string :=
  DecimalString.NilZero.string_of_int (Z.to_int n).

End Str.

(* ================================================================= *)
(** ** The built-ins [int], [float] and [str] on numbers

    [load_file] turns text into numbers with [float(...)] and [int(...)],
    and [__repr__] turns a float back into text through an f-string,
    which is [repr] of the float: the shortest decimal text that reads
    back as the same binary64 number. *)

Module Num.

Definition LF : ascii := "010"%char.
Definition CR : ascii := "013"%char.
Definition QUOTE : ascii := "034"%char.

(** The characters [float] and [int] skip at both ends of a text, among
    the 8-bit ones: the six ASCII blanks (tab to carriage return, and
    the space) and the two blanks above 127, which the conversion first
    turns into spaces.  The separators 28 to 31 are not among them. *)
Definition is_space (c : ascii) : bool :=
  let n := nat_of_ascii c in
  ((9 <=? n) && (n <=? 13) || (n =? 32) || (n =? 133) || (n =? 160))%nat.

Fixpoint lstrip (l : list ascii) : list ascii :=
  match l with
  | c :: rest => if is_space c then lstrip rest else l
  | [] => []
  end.

Definition strip (l : list ascii) : list ascii :=
  rev (lstrip (rev (lstrip l))).

Definition digit (c : ascii) : option Z :=
  let n := nat_of_ascii c in
  if ((48 <=? n) && (n <=? 57))%nat then Some (Z.of_nat (n - 48)) else None.

Definition is_digit (c : ascii) : bool :=
  match digit c with Some _ => true | None => false end.

(** [digit (["_"] digit)*]: the digits read, most significant first,
    and what follows them. *)
Fixpoint digitpart (l : list ascii) : list Z * list ascii :=
  match l with
  | c :: rest =>
      match digit c with
      | Some d =>
          match rest with
          | u :: rest' =>
              if Ascii.eqb u "_" && match rest' with c' :: _ => is_digit c' | [] => false end
              then let (ds, r) := digitpart rest' in (d :: ds, r)
              else let (ds, r) := digitpart rest in (d :: ds, r)
          | [] => ([d], [])
          end
      | None => ([], l)
      end
  | [] => ([], [])
  end.

Definition Z_of_digits (ds : list Z) : Z :=
  fold_left (fun acc d => 10 * acc + d) ds 0.

(** An optional sign: [true] for a minus. *)
Definition sign (l : list ascii) : bool * list ascii :=
  match l with
  | c :: rest =>
      if Ascii.eqb c "-" then (true, rest)
      else if Ascii.eqb c "+" then (false, rest)
      else (false, l)
  | [] => (false, [])
  end.

(** The text a conversion error quotes (escapes are not modelled). *)
Definition quoted (s : string) : string := "'" ++ s ++ "'".

(** [sys.get_int_max_str_digits()], as Python 3.11 starts with. *)
Definition int_max_str_digits : Z := 4300.

(** [int(s)], base 10.  Once the digits are read and before what
    follows them is looked at, a text of more digits than the limit is
    refused. *)
Definition int (s : string) : result Z :=
  let invalid := Raise (ValueError ("invalid literal for int() with base 10: " ++ quoted s)) in
  let (neg, l) := sign (strip (list_ascii_of_string s)) in
  match digitpart l with
  | ((_ :: _) as ds, rest) =>
      let digits := Z.of_nat (List.length ds) in
      match rest with
      | c :: _ => if Ascii.eqb c "_" then invalid
                  else if int_max_str_digits <? digits then
                    Raise (ValueError
                             ("Exceeds the limit (4300 digits) for integer string conversion: "
                              ++ "value has " ++ Str.of_Z digits ++ " digits; "
                              ++ "use sys.set_int_max_str_digits() to increase the limit"))
                  else invalid
      | [] => if int_max_str_digits <? digits then
                Raise (ValueError
                         ("Exceeds the limit (4300 digits) for integer string conversion: "
                          ++ "value has " ++ Str.of_Z digits ++ " digits; "
                          ++ "use sys.set_int_max_str_digits() to increase the limit"))
              else Ok (if neg then - Z_of_digits ds else Z_of_digits ds)
      end
  | _ => invalid
  end.

(** The binary64 number nearest to [n / d] (for [n], [d] positive), ties
    to the even mantissa; infinity beyond the largest finite number. *)
Definition nearest (n d : Z) : float :=
  let scale e := if 0 <=? e then (n, d * 2 ^ e) else (n * 2 ^ (- e), d) in
  let e0 := Z.log2 n - Z.log2 d - 52 in
  let e1 := let (a, b) := scale e0 in if a / b <? 2 ^ 52 then e0 - 1 else e0 in
  let e := Z.max e1 (-1074) in
  let (a, b) := scale e in
  let q := a / b in
  let r := a mod b in
  let q' := if (b <? 2 * r) || ((b =? 2 * r) && Z.odd q) then q + 1 else q in
  match q' with
  | Zpos m => SF2Prim (S754_finite false m e)
  | _ => zero
  end.

(** The binary64 number nearest to [mant * 10 ^ exp10], with the sign. *)
Definition of_decimal (neg : bool) (mant exp10 : Z) : float :=
  let x :=
    if mant <=? 0 then zero
    else if 309 <? exp10 then infinity
    else if Z.log2 mant + 1 + exp10 <? -325 then zero
    else if 0 <=? exp10 then nearest (mant * 10 ^ exp10) 1
    else nearest mant (10 ^ (- exp10)) in
  if neg then (- x)%float else x.

Definition lower (c : ascii) : ascii :=
  let n := nat_of_ascii c in
  if ((65 <=? n) && (n <=? 90))%nat then ascii_of_nat (n + 32) else c.

(** [e] or [E], an optional sign and digits; nothing read when the text
    does not start with an exponent. *)
Definition exponent (l : list ascii) : option (Z * list ascii) :=
  match l with
  | c :: rest =>
      if Ascii.eqb (lower c) "e" then
        let (neg, rest') := sign rest in
        match digitpart rest' with
        | ((_ :: _) as ds, r) => Some (if neg then - Z_of_digits ds else Z_of_digits ds, r)
        | _ => None
        end
      else Some (0, l)
  | [] => Some (0, [])
  end.

(** [float(s)]. *)
Definition float_of_str (s : string) : result float :=
  let bad := Raise (ValueError ("could not convert string to float: " ++ quoted s)) in
  let (neg, l) := sign (strip (list_ascii_of_string s)) in
  let word := string_of_list_ascii (map lower l) in
  if String.eqb word "inf" || String.eqb word "infinity"
  then Ok (if neg then neg_infinity else infinity)
  else if String.eqb word "nan" then Ok nan
  else
    let (ip, l1) := digitpart l in
    let (fp, l2) :=
      match l1 with
      | c :: rest => if Ascii.eqb c "." then digitpart rest else ([], l1)
      | [] => ([], [])
      end in
    match ip, fp with
    | [], [] => bad
    | _, _ =>
        match exponent l2 with
        | Some (x, []) =>
            Ok (of_decimal neg (Z_of_digits (ip ++ fp)) (x - Z.of_nat (List.length fp)))
        | _ => bad
        end
    end.

(** *** [repr] of a float *)

Definition digit_char (d : nat) : ascii :=
  match d with
  | 0%nat => "0" | 1%nat => "1" | 2%nat => "2" | 3%nat => "3" | 4%nat => "4"
  | 5%nat => "5" | 6%nat => "6" | 7%nat => "7" | 8%nat => "8" | _ => "9"
  end%char.

(** The decimal digits of [z >= 0], most significant first. *)
Fixpoint digits_of (fuel : nat) (z : Z) (acc : list nat) : list nat :=
  match fuel with
  | O => Z.to_nat (z mod 10) :: acc
  | S fuel' =>
      if z <? 10 then Z.to_nat z :: acc
      else digits_of fuel' (z / 10) (Z.to_nat (z mod 10) :: acc)
  end.

Definition decimal_digits (z : Z) : list nat :=
  digits_of (Z.to_nat (Z.log2 z)) z [].

(** [n / d < 10 ^ j]. *)
Definition below_pow10 (n d j : Z) : bool :=
  if 0 <=? j then n <? d * 10 ^ j else n * 10 ^ (- j) <? d.

(** The [k] with [10 ^ (k - 1) <= n / d < 10 ^ k], from an estimate. *)
Fixpoint decimal_point (fuel : nat) (n d k : Z) : Z :=
  match fuel with
  | O => k
  | S fuel' =>
      if below_pow10 n d (k - 1) then decimal_point fuel' n d (k - 1)
      else if below_pow10 n d k then k
      else decimal_point fuel' n d (k + 1)
  end.

(** The candidates with [digits] significant digits around [n / d]:
    the one that reads back as [x], the nearer one when both do. *)
Definition candidate (x : float) (n d k : Z) (digits : Z) : option Z :=
  let t := digits - k in
  let (a, b) := if 0 <=? t then (n * 10 ^ t, d) else (n, d * 10 ^ (- t)) in
  let lo := a / b in
  let r := a mod b in
  let back c := (of_decimal false c (- t) =? x)%float in
  match back lo, back (lo + 1) with
  | true, true => Some (if 2 * r <=? b then lo else lo + 1)
  | true, false => Some lo
  | false, true => Some (lo + 1)
  | false, false => None
  end.

Fixpoint shortest_from (fuel : nat) (x : float) (n d k : Z) (digits : Z) : Z * Z :=
  match candidate x n d k digits, fuel with
  | Some c, _ => (c, k - digits)
  | None, S fuel' => shortest_from fuel' x n d k (digits + 1)
  | None, O => (n * 10 ^ (17 - k) / d, k - 17)
  end.

Fixpoint strip_zeros (l : list nat) : list nat :=
  match l with
  | 0%nat :: rest => strip_zeros rest
  | _ => l
  end.

(** The shortest digits of the finite positive [x = m * 2 ^ e] and the
    position of its decimal point: [x] reads as [0.d1d2... * 10 ^ point]. *)
Definition shortest (x : float) (m e : Z) : list nat * Z :=
  let (n, d) := if 0 <=? e then (m * 2 ^ e, 1) else (m, 2 ^ (- e)) in
  let k := decimal_point 4 n d ((Z.log2 n - Z.log2 d) * 30103 / 100000) in
  let (c, scale) := shortest_from 16 x n d k 1 in
  let ds := decimal_digits c in
  (rev (strip_zeros (rev ds)), Z.of_nat (List.length ds) + scale).

Definition text (ds : list nat) : string :=
  string_of_list_ascii (map digit_char ds).

Definition zeros (n : Z) : list nat := repeat 0%nat (Z.to_nat n).

(** The layout [repr] gives the digits: an exponent when the point is
    far from them, a fraction otherwise (with [.0] after an integer). *)
Definition layout (ds : list nat) (point : Z) : string :=
  if (point <=? -4) || (16 <? point) then
    let x := point - 1 in
    let xs := decimal_digits (Z.abs x) in
    text (firstn 1 ds)
    ++ (match skipn 1 ds with [] => "" | rest => "." ++ text rest end)
    ++ "e" ++ (if x <? 0 then "-" else "+")
    ++ text (match xs with [_] => 0%nat :: xs | _ => xs end)
  else if point <=? 0 then "0." ++ text (zeros (- point) ++ ds)
  else if Z.of_nat (List.length ds) <=? point
       then text (ds ++ zeros (point - Z.of_nat (List.length ds))) ++ ".0"
       else text (firstn (Z.to_nat point) ds) ++ "." ++ text (skipn (Z.to_nat point) ds).

(** [repr(x)], which is also [str(x)] and what [f"{x}"] inserts. *)
Definition repr (x : float) : string :=
  match Prim2SF x with
  | S754_nan => "nan"
  | S754_infinity s => if s then "-inf" else "inf"
  | S754_zero s => if s then "-0.0" else "0.0"
  | S754_finite s m e =>
      let (ds, point) := shortest (abs x) (Zpos m) e in
      (if s then "-" else "") ++ layout ds point
  end.

End Num.

(* ================================================================= *)
(** ** employee.py *)

Module Employee_py.

(** [class Role(Enum)] *)
Inductive Role : Type := CEO | CFO | COO.

Definition Role_members : list Role := [CEO; CFO; COO].

Definition Role_value (r : Role) : Z :=
  match r with CEO => 1 | CFO => 2 | COO => 3 end.

Definition Role_name (r : Role) : string :=
  match r with CEO => "CEO" | CFO => "CFO" | COO => "COO" end.

(** [class Department(Enum)] *)
Inductive Department : Type := ACCOUNTING | FINANCE | HR | R_AND_D | MACHINING.

Definition Department_members : list Department :=
  [ACCOUNTING; FINANCE; HR; R_AND_D; MACHINING].

Definition Department_value (d : Department) : Z :=
  match d with
  | ACCOUNTING => 1 | FINANCE => 2 | HR => 3 | R_AND_D => 4 | MACHINING => 5
  end.

Definition Department_name (d : Department) : string :=
  match d with
  | ACCOUNTING => "ACCOUNTING" | FINANCE => "FINANCE" | HR => "HR"
  | R_AND_D => "R_AND_D" | MACHINING => "MACHINING"
  end.

(** What a caller can hand over as a role or a department: the integer
    code [load_file] passes, or a member of one of the two enumerations,
    which is what the annotation of [Manager.__init__] names. *)
Inductive pyobj : Type :=
| PyInt (n : Z)
| PyRole (r : Role)
| PyDepartment (d : Department).

Definition Role_eqb (a b : Role) : bool :=
  match a, b with
  | CEO, CEO | CFO, CFO | COO, COO => true
  | _, _ => false
  end.

Definition Department_eqb (a b : Department) : bool :=
  match a, b with
  | ACCOUNTING, ACCOUNTING | FINANCE, FINANCE | HR, HR
  | R_AND_D, R_AND_D | MACHINING, MACHINING => true
  | _, _ => false
  end.

(** [a == b].  [Enum] (unlike [IntEnum]) compares by identity: a member
    equals itself only, and never an integer. *)
Definition py_eq (a b : pyobj) : bool :=
  match a, b with
  | PyInt m, PyInt n => Z.eqb m n
  | PyRole r, PyRole r' => Role_eqb r r'
  | PyDepartment d, PyDepartment d' => Department_eqb d d'
  | _, _ => false
  end.

(** [x in l] for a list. *)
Definition py_in (x : pyobj) (l : list pyobj) : bool := existsb (py_eq x) l.

(** [str(x)], the text an f-string inserts. *)
Definition py_str (x : pyobj) : string :=
  match x with
  | PyInt n => Str.of_Z n
  | PyRole r => "Role." ++ Role_name r
  | PyDepartment d => "Department." ++ Department_name d
  end.

(** [repr(x)]. *)
Definition py_repr (x : pyobj) : string :=
  match x with
  | PyInt n => Str.of_Z n
  | PyRole r => "<Role." ++ Role_name r ++ ": " ++ Str.of_Z (Role_value r) ++ ">"
  | PyDepartment d =>
      "<Department." ++ Department_name d ++ ": " ++ Str.of_Z (Department_value d) ++ ">"
  end.

(** [Role(x)]: the member itself, or the member whose value is [x]. *)
Definition Role_call (x : pyobj) : result Role :=
  match x with
  | PyRole r => Ok r
  | _ =>
      match find (fun s => py_eq x (PyInt (Role_value s))) Role_members with
      | Some r => Ok r
      | None => Raise (ValueError (py_repr x ++ " is not a valid Role"))
      end
  end.

(** [Department(x)]. *)
Definition Department_call (x : pyobj) : result Department :=
  match x with
  | PyDepartment d => Ok d
  | _ =>
      match find (fun s => py_eq x (PyInt (Department_value s))) Department_members with
      | Some d => Ok d
      | None => Raise (ValueError (py_repr x ++ " is not a valid Department"))
      end
  end.

(** *** class Employee *)

Definition IMAGE_PLACEHOLDER : string := "./images/placeholder.png".

(** The attributes [Employee.__init__] gives an instance. *)
Record Employee : Type := mkEmployee {
  id_number : Z;
  _name : string;
  _email : string;
  _image : string
}.

(** The test a setter makes before it stores: [Ok tt] lets the
    assignment through. *)
Definition name_check (name : string) : result unit :=
  if Str.is_blank name then Raise (ValueError "Name cannot be blank")
  else Ok tt.

Definition email_check (email : string) : result unit :=
  if Str.is_blank email then Raise (ValueError "Email cannot be blank")
  else if negb (Str.contains "@acme-machining.com" email)
       then Raise (ValueError "Email must be from @acme-machining.com")
       else Ok tt.

Definition image_check (image : string) : result unit :=
  if Str.is_blank image then Raise (ValueError "Image cannot be empty.")
  else Ok tt.

(** The property setters: the state is the instance. *)
Definition name_setter (name : string) : M Employee unit :=
  lift (name_check name) ;;
  self <- get ;;
  put (mkEmployee (id_number self) name (_email self) (_image self)).

Definition email_setter (email : string) : M Employee unit :=
  lift (email_check email) ;;
  self <- get ;;
  put (mkEmployee (id_number self) (_name self) email (_image self)).

Definition image_setter (image : string) : M Employee unit :=
  lift (image_check image) ;;
  self <- get ;;
  put (mkEmployee (id_number self) (_name self) (_email self) image).

(** [Employee.__init__(self, name, email)].  The state is the class
    attribute [Employee.id_number]: it is read and incremented first,
    then the three assignments run their setters. *)
Definition Employee__init__ (name email : string) : M Z Employee :=
  counter <- get ;;
  put (counter + 1) ;;
  lift (name_check name) ;;
  lift (email_check email) ;;
  lift (image_check IMAGE_PLACEHOLDER) ;;
  ret (mkEmployee counter name email IMAGE_PLACEHOLDER).

(** *** class Salaried(Employee)

    The yearly amount and the hourly wage are floats: [load_file] and
    the forms pass what [float(...)] returns. *)

Record Salaried : Type := mkSalaried {
  salaried_base : Employee;
  _yearly : float
}.

Definition yearly_check (yearly : float) : result unit :=
  if (yearly <? 50000)%float
  then Raise (ValueError "Yearly salary must be over $50,000")
  else Ok tt.

Definition yearly_setter (yearly : float) : M Salaried unit :=
  lift (yearly_check yearly) ;;
  self <- get ;;
  put (mkSalaried (salaried_base self) yearly).

Definition Salaried__init__ (name email : string) (yearly : float) : M Z Salaried :=
  base <- Employee__init__ name email ;;
  lift (yearly_check yearly) ;;
  ret (mkSalaried base yearly).

Definition Salaried_calc_pay (self : Salaried) : float :=
  (_yearly self / 52.0)%float.

(** *** class Hourly(Employee) *)

Record Hourly : Type := mkHourly {
  hourly_base : Employee;
  _hourly_wage : float
}.

Definition hourly_wage_check (hourly_wage : float) : result unit :=
  if ((hourly_wage <? 15) || (99.99 <? hourly_wage))%float
  then Raise (ValueError "Hourly wage must be between $15 and $99.99 (inclusive)")
  else Ok tt.

Definition hourly_wage_setter (hourly_wage : float) : M Hourly unit :=
  lift (hourly_wage_check hourly_wage) ;;
  self <- get ;;
  put (mkHourly (hourly_base self) hourly_wage).

Definition Hourly__init__ (name email : string) (hourly_wage : float) : M Z Hourly :=
  base <- Employee__init__ name email ;;
  lift (hourly_wage_check hourly_wage) ;;
  ret (mkHourly base hourly_wage).

Definition Hourly_calc_pay (self : Hourly) : float :=
  (_hourly_wage self * 40.0)%float.

(** *** The four classes that are instantiated

    [hired_date] and [last_day] are stored as given; [load_file] passes
    the text of the sixth field, and no method looks inside. *)

Inductive instance : Type :=
| Executive (self : Salaried) (role : Role)
| Manager (self : Salaried) (department : Department)
| Permanent (self : Hourly) (hired_date : string)
| Temporary (self : Hourly) (last_day : string).

Definition Executive__init__ (name email : string) (yearly : float)
  (role : pyobj) : M Z instance :=
  self <- Salaried__init__ name email yearly ;;
  (if negb (py_in role (map (fun s => PyInt (Role_value s)) Role_members))
   then raise (InvalidRoleException (py_str role ++ " is not a valid role."))
   else ret tt) ;;
  r <- lift (Role_call role) ;;
  ret (Executive self r).

Definition Manager__init__ (name email : string) (yearly : float)
  (department : pyobj) : M Z instance :=
  self <- Salaried__init__ name email yearly ;;
  (if negb (py_in department
              (map (fun d => PyInt (Department_value d)) Department_members))
   then raise (InvalidDepartmentException
                 (py_str department ++ " is not a valid department."))
   else ret tt) ;;
  d <- lift (Department_call department) ;;
  ret (Manager self d).

Definition Permanent__init__ (name email : string) (hourly_wage : float)
  (hired_date : string) : M Z instance :=
  self <- Hourly__init__ name email hourly_wage ;;
  ret (Permanent self hired_date).

Definition Temporary__init__ (name email : string) (hourly_wage : float)
  (last_day : string) : M Z instance :=
  self <- Hourly__init__ name email hourly_wage ;;
  ret (Temporary self last_day).

(** [type(e).__name__] *)
Definition type_name (e : instance) : string :=
  match e with
  | Executive _ _ => "Executive"
  | Manager _ _ => "Manager"
  | Permanent _ _ => "Permanent"
  | Temporary _ _ => "Temporary"
  end.

(** [isinstance(e, Salaried)] *)
Definition isinstance_Salaried (e : instance) : bool :=
  match e with
  | Executive _ _ | Manager _ _ => true
  | Permanent _ _ | Temporary _ _ => false
  end.

(** The attributes of the base class, whatever the class. *)
Definition base (e : instance) : Employee :=
  match e with
  | Executive s _ | Manager s _ => salaried_base s
  | Permanent h _ | Temporary h _ => hourly_base h
  end.

(** [e.calc_pay()], dispatched on the class. *)
Definition calc_pay (e : instance) : float :=
  match e with
  | Executive s _ | Manager s _ => Salaried_calc_pay s
  | Permanent h _ | Temporary h _ => Hourly_calc_pay h
  end.

(** [__repr__], class by class: each adds its field to the text of its
    base class, with the separator its f-string writes. *)
Definition Employee__repr__ (self : Employee) : string :=
  _name self ++ ", " ++ _email self ++ ", " ++ _image self.

Definition Salaried__repr__ (self : Salaried) : string :=
  Employee__repr__ (salaried_base self) ++ ", " ++ Num.repr (_yearly self).

Definition Hourly__repr__ (self : Hourly) : string :=
  Employee__repr__ (hourly_base self) ++ "," ++ Num.repr (_hourly_wage self).

Definition __repr__ (e : instance) : string :=
  match e with
  | Executive s role => Salaried__repr__ s ++ "," ++ Role_name role
  | Manager s department => Salaried__repr__ s ++ "," ++ Department_name department
  | Permanent h hired_date => Hourly__repr__ h ++ "," ++ hired_date
  | Temporary h last_day => Hourly__repr__ h ++ ", " ++ last_day
  end.

End Employee_py.

(* ================================================================= *)
(** ** Reading a text file through [csv.reader]

    [open(path)] hands out the lines of the file, line ends translated
    to a line feed and kept; [csv.reader(datafile, quoting=QUOTE_MINIMAL)]
    turns them into rows with the reader's state machine under the
    default dialect: delimiter [,], quote character code 34, doubled
    quotes, no escape character, initial spaces kept, not strict, and
    the limit of 131072 characters on a field. *)

Module Csv.

Definition LF := Num.LF.
Definition CR := Num.CR.
Definition QUOTE := Num.QUOTE.

(** Universal newlines: [CR LF] and a lone [CR] are read as [LF]. *)
Fixpoint translate (l : list ascii) : list ascii :=
  match l with
  | [] => []
  | c :: rest =>
      if Ascii.eqb c CR then
        match rest with
        | c' :: rest' => if Ascii.eqb c' LF then LF :: translate rest' else LF :: translate rest
        | [] => [LF]
        end
      else c :: translate rest
  end.

(** The lines of a text, each with its line feed. *)
Fixpoint split_lines (line : string) (l : list ascii) : list string :=
  match l with
  | [] => if Str.is_blank line then [] else [line]
  | c :: rest =>
      if Ascii.eqb c LF then (line ++ String c "")%string :: split_lines "" rest
      else split_lines (line ++ String c "")%string rest
  end.

(** Iterating over [open(path)]. *)
Definition readlines (content : string) : list string :=
  split_lines "" (translate (list_ascii_of_string content)).

Inductive state : Type :=
| START_RECORD
| START_FIELD
| IN_FIELD
| IN_QUOTED_FIELD
| QUOTE_IN_QUOTED_FIELD
| EAT_CRNL.

(** The reader between two characters: its state, the fields of the
    row so far and the characters of the field being read. *)
Record reader : Type := mkReader {
  st : state;
  fields : list string;
  field : string
}.

Definition reset : reader := mkReader START_RECORD [] "".

Definition save_field (r : reader) (s : state) : reader :=
  mkReader s (fields r ++ [field r]) "".

(** [csv.field_size_limit()], as the module starts with. *)
Definition field_size_limit : Z := 131072.

(** A character goes into the field being read unless the field has
    reached the limit. *)
Definition add_char (r : reader) (c : ascii) (s : state) : result reader :=
  if field_size_limit <=? Z.of_nat (String.length (field r))
  then Raise (csv_Error "field larger than field limit (131072)")
  else Ok (mkReader s (fields r) (field r ++ String c "")%string).

Definition goto (r : reader) (s : state) : reader :=
  mkReader s (fields r) (field r).

Definition is_newline (c : ascii) : bool := Ascii.eqb c LF || Ascii.eqb c CR.

(** After a line end inside the line, or after the end of the line. *)
Definition after_line (c : option ascii) : state :=
  match c with None => START_RECORD | Some _ => EAT_CRNL end.

Definition at_line_end (c : option ascii) : bool :=
  match c with None => true | Some a => is_newline a end.

Definition is_char (c : option ascii) (a : ascii) : bool :=
  match c with None => false | Some b => Ascii.eqb b a end.

(** One step of the reader on a character, or on the end of the line
    ([None]). *)
Definition process_char (r : reader) (c : option ascii) : result reader :=
  let start_field :=
    if at_line_end c then Ok (save_field r (after_line c))
    else if is_char c QUOTE then Ok (goto r IN_QUOTED_FIELD)
    else if is_char c "," then Ok (save_field r START_FIELD)
    else match c with
         | Some a => add_char r a IN_FIELD
         | None => Ok r
         end in
  match st r with
  | START_RECORD =>
      match c with
      | None => Ok r
      | Some a => if is_newline a then Ok (goto r EAT_CRNL) else start_field
      end
  | START_FIELD => start_field
  | IN_FIELD =>
      if at_line_end c then Ok (save_field r (after_line c))
      else if is_char c "," then Ok (save_field r START_FIELD)
      else match c with
           | Some a => add_char r a IN_FIELD
           | None => Ok r
           end
  | IN_QUOTED_FIELD =>
      match c with
      | None => Ok r
      | Some a =>
          if Ascii.eqb a QUOTE then Ok (goto r QUOTE_IN_QUOTED_FIELD)
          else add_char r a IN_QUOTED_FIELD
      end
  | QUOTE_IN_QUOTED_FIELD =>
      if is_char c QUOTE then
        match c with
        | Some a => add_char r a IN_QUOTED_FIELD
        | None => Ok r
        end
      else if is_char c "," then Ok (save_field r START_FIELD)
      else if at_line_end c then Ok (save_field r (after_line c))
      else match c with
           | Some a => add_char r a IN_FIELD
           | None => Ok r
           end
  | EAT_CRNL =>
      match c with
      | None => Ok (goto r START_RECORD)
      | Some a =>
          if is_newline a then Ok r
          else Raise (csv_Error
                        ("new-line character seen in unquoted field - "
                         ++ "do you need to open the file in universal-newline mode?"))
      end
  end.

Fixpoint feed (r : reader) (l : list ascii) : result reader :=
  match l with
  | [] => Ok r
  | c :: rest =>
      match process_char r (Some c) with
      | Ok r' => feed r' rest
      | Raise e => Raise e
      end
  end.

(** A whole line, then its end. *)
Definition feed_line (r : reader) (line : string) : result reader :=
  match feed r (list_ascii_of_string line) with
  | Ok r' => process_char r' None
  | Raise e => Raise e
  end.

(** The rows the reader yields over the lines, in order, and the error
    that ends the iteration early, if any: the rows before it have been
    handed out by then. *)
Fixpoint rows_from (r : reader) (lines : list string) : list (list string) * option exn :=
  match lines with
  | [] =>
      if negb (Str.is_blank (field r))
         || match st r with IN_QUOTED_FIELD => true | _ => false end
      then ([fields (save_field r START_RECORD)], None)
      else ([], None)
  | line :: rest =>
      match feed_line r line with
      | Raise e => ([], Some e)
      | Ok r' =>
          match st r' with
          | START_RECORD =>
              let (rs, err) := rows_from reset rest in (fields r' :: rs, err)
          | _ => rows_from r' rest
          end
      end
  end.

Definition rows (lines : list string) : list (list string) * option exn :=
  rows_from reset lines.

End Csv.

(* ================================================================= *)
(** ** gui.py: [MainWindow.load_file] and [MainWindow.save_file] *)

Module Gui_py.

Import Employee_py.

(** What the two methods read and write besides the file: the class
    attribute [Employee.id_number] and the window's list [_data]. *)
Record world : Type := mkWorld {
  Employee_id_number : Z;
  _data : list instance
}.

(** The frame of a call of [load_file]: its local variable [employee],
    unbound until a branch assigns it, and the world.  The other locals
    are assigned before every use and need no slot. *)
Record frame : Type := mkFrame {
  employee : option instance;
  globals : world
}.

(** [row[i]] *)
Definition item (row : list string) (i : nat) : result string :=
  match nth_error row i with
  | Some s => Ok s
  | None => Raise (IndexError "list index out of range")
  end.

(** [employee = C(...)]: the constructor runs on the class counter; the
    local is bound when it returns. *)
Definition assign_new (init : M Z instance) : M frame unit :=
  fun f =>
    let w := globals f in
    match init (Employee_id_number w) with
    | (Ok e, n) => (Ok tt, mkFrame (Some e) (mkWorld n (_data w)))
    | (Raise x, n) => (Raise x, mkFrame (employee f) (mkWorld n (_data w)))
    end.

(** Reading the local [employee]. *)
Definition read_employee : M frame instance :=
  fun f =>
    match employee f with
    | Some e => (Ok e, f)
    | None => (Raise (UnboundLocalError "employee"), f)
    end.

(** [self._data.append(e)] *)
Definition append (e : instance) : M frame unit :=
  fun f =>
    let w := globals f in
    (Ok tt, mkFrame (employee f) (mkWorld (Employee_id_number w) (_data w ++ [e]))).

(** The body of the loop of [load_file] on one row.  The two [print]
    calls write to the standard output only; the second reads the local
    [employee], which is where an unbound local is noticed. *)
Definition load_row (row : list string) : M frame unit :=
  type <- lift (item row 0) ;;
  name <- lift (item row 1) ;;
  email <- lift (item row 2) ;;
  _image <- lift (item row 3) ;;
  (if String.eqb type "Executive" then
     amount <- lift (item row 4) ;;
     salary <- lift (Num.float_of_str amount) ;;
     code <- lift (item row 5) ;;
     role <- lift (Num.int code) ;;
     assign_new (Executive__init__ name email salary (PyInt role))
   else ret tt) ;;
  (if String.eqb type "Manager" then
     amount <- lift (item row 4) ;;
     salary <- lift (Num.float_of_str amount) ;;
     code <- lift (item row 5) ;;
     department <- lift (Num.int code) ;;
     assign_new (Manager__init__ name email salary (PyInt department))
   else ret tt) ;;
  (if String.eqb type "Temp" then
     amount <- lift (item row 4) ;;
     hourly <- lift (Num.float_of_str amount) ;;
     last_day <- lift (item row 5) ;;
     assign_new (Temporary__init__ name email hourly last_day)
   else ret tt) ;;
  (if String.eqb type "Permanent" then
     amount <- lift (item row 4) ;;
     hourly <- lift (Num.float_of_str amount) ;;
     hired_date <- lift (item row 5) ;;
     assign_new (Permanent__init__ name email hourly hired_date)
   else ret tt) ;;
  e <- read_employee ;;
  append e.

(** The loop over the rows of the reader; an error of the reader ends
    it after the rows read before. *)
Definition load_rows (rows : list (list string)) : M frame unit :=
  for_each rows load_row.

Definition load_lines (lines : list string) : M frame unit :=
  let (rows, err) := Csv.rows lines in
  load_rows rows ;;
  match err with
  | Some e => raise e
  | None => ret tt
  end.

(** [MainWindow.load_file], on the content of [./employee.data]. *)
Definition load_file (content : string) : M world unit :=
  fun w =>
    let (r, f) := load_lines (Csv.readlines content) (mkFrame None w) in
    (r, globals f).

(** The line [save_file] writes for one employee. *)
Definition save_line (e : instance) : string :=
  type_name e ++ "," ++ __repr__ e ++ String Csv.LF "".

(** [MainWindow.save_file]: the new content of [./employee.data]. *)
Definition save_file (w : world) : string :=
  String.concat "" (map save_line (_data w)).

End Gui_py.

(* ================================================================= *)
(** ** Vocabulary of the statements *)

Module Roster.

Import Employee_py Gui_py.

(** A construction attempt: the class called and its arguments. *)
Inductive call : Type :=
| NewExecutive (name email : string) (yearly : float) (role : pyobj)
| NewManager (name email : string) (yearly : float) (department : pyobj)
| NewPermanent (name email : string) (hourly_wage : float) (hired_date : string)
| NewTemporary (name email : string) (hourly_wage : float) (last_day : string).

Definition construct (a : call) : M Z instance :=
  match a with
  | NewExecutive name email yearly role => Executive__init__ name email yearly role
  | NewManager name email yearly department => Manager__init__ name email yearly department
  | NewPermanent name email hourly_wage hired_date =>
      Permanent__init__ name email hourly_wage hired_date
  | NewTemporary name email hourly_wage last_day =>
      Temporary__init__ name email hourly_wage last_day
  end.

Definition call_name (a : call) : string :=
  match a with
  | NewExecutive name _ _ _ | NewManager name _ _ _
  | NewPermanent name _ _ _ | NewTemporary name _ _ _ => name
  end.

Definition call_email (a : call) : string :=
  match a with
  | NewExecutive _ email _ _ | NewManager _ email _ _
  | NewPermanent _ email _ _ | NewTemporary _ email _ _ => email
  end.

(** Attempts made one after the other on the class counter, each
    outcome kept: what a caller sees who catches the exceptions. *)
Fixpoint attempts (calls : list call) (counter : Z) : list (result instance) * Z :=
  match calls with
  | [] => ([], counter)
  | a :: rest =>
      let (r, counter') := construct a counter in
      let (rs, counter'') := attempts rest counter' in
      (r :: rs, counter'')
  end.

(** The identities of the attempts that succeeded, in order. *)
Fixpoint identities (outcomes : list (result instance)) : list Z :=
  match outcomes with
  | [] => []
  | Ok e :: rest => id_number (base e) :: identities rest
  | Raise _ :: rest => identities rest
  end.

Definition raises_ValueError {A : Type} (r : result A) : bool :=
  match r with
  | Raise (ValueError _) => true
  | _ => false
  end.

(** An instance with the attributes of its base class replaced. *)
Definition with_base (e : instance) (b : Employee) : instance :=
  match e with
  | Executive s role => Executive (mkSalaried b (_yearly s)) role
  | Manager s department => Manager (mkSalaried b (_yearly s)) department
  | Permanent h hired_date => Permanent (mkHourly b (_hourly_wage h)) hired_date
  | Temporary h last_day => Temporary (mkHourly b (_hourly_wage h)) last_day
  end.

(** A setter of the base class run on an instance of a leaf class. *)
Definition on_base {A : Type} (m : M Employee A) : M instance A :=
  zoom base with_base m.


(** Text that holds no comma, quote or line end. *)
Definition plain_char (c : ascii) : bool :=
  negb (Ascii.eqb c "," || Ascii.eqb c Csv.QUOTE || Csv.is_newline c).

Definition plain (s : string) : bool :=
  forallb plain_char (list_ascii_of_string s).

(** The text [save_line] writes for the pay field and for the field of
    the class, and the separators [__repr__] puts before them. *)
Definition amount_text (e : instance) : string :=
  match e with
  | Executive s _ | Manager s _ => Num.repr (_yearly s)
  | Permanent h _ | Temporary h _ => Num.repr (_hourly_wage h)
  end.

Definition class_text (e : instance) : string :=
  match e with
  | Executive _ role => Role_name role
  | Manager _ department => Department_name department
  | Permanent _ hired_date => hired_date
  | Temporary _ last_day => last_day
  end.

(** The space [__repr__] writes after a comma, where it writes one. *)
Definition amount_gap (e : instance) : string :=
  if isinstance_Salaried e then " " else "".

Definition class_gap (e : instance) : string :=
  match e with
  | Temporary _ _ => " "
  | _ => ""
  end.

(** Sample calls, one per class, and one that fails on its blank name. *)
Definition ann : call :=
  NewExecutive "Ann" "ann@acme-machining.com" 60000 (PyInt 1).

Definition bob : call :=
  NewManager "Bob" "bob@acme-machining.com" 75000.5 (PyInt 3).

Definition cara : call :=
  NewPermanent "Cara" "cara@acme-machining.com" 20.5 "2020-01-15".

Definition dan : call :=
  NewTemporary "Dan" "dan@acme-machining.com" 15 "2024-06-30".

Definition nameless : call :=
  NewPermanent "" "x@acme-machining.com" 20 "2021-03-01".

Definition jane : call :=
  NewExecutive "Doe, Jane" "jd@acme-machining.com" 60000 (PyInt 1).

(** The fields of the line of a record, as the reader splits it. *)
Definition saved_fields (e : instance) : list string :=
  [type_name e; _name (base e); (" " ++ _email (base e))%string;
   (" " ++ _image (base e))%string; (amount_gap e ++ amount_text e)%string;
   (class_gap e ++ class_text e)%string].

(** Text within the limit of the reader on a field. *)
Definition fits (s : string) : bool :=
  Z.of_nat (String.length s) <=? Csv.field_size_limit.

(** Every field of the line of the record is within that limit. *)
Definition fields_fit (e : instance) : bool := forallb fits (saved_fields e).

(** Text that holds no line end. *)
Definition one_line (s : string) : bool :=
  forallb (fun c => negb (Csv.is_newline c)) (list_ascii_of_string s).

(** The roster that holds the record a call builds with the counter at
    [c], and nothing when the call fails. *)
Definition built (a : call) (c : Z) : list instance :=
  match fst (construct a c) with
  | Ok e => [e]
  | Raise _ => []
  end.


(** Properties of the steps of [load_file].  A step [keeps] the list
    [_data]. *)
Definition keeps {A : Type} (m : M frame A) : Prop :=
  forall f, _data (globals (snd (m f))) = _data (globals f).

(** A row either raises and keeps the list, or adds one record to it. *)
Definition adds_one (m : M frame unit) : Prop :=
  forall f,
    match m f with
    | (Ok _, f') => exists e, _data (globals f') = _data (globals f) ++ [e]
    | (Raise _, f') => _data (globals f') = _data (globals f)
    end.



(** The first field is one of the four tags [load_file] tests. *)
Definition known_tag (row : list string) : bool :=
  match row with
  | [] => false
  | tag :: _ =>
      String.eqb tag "Executive" || String.eqb tag "Manager"
      || String.eqb tag "Temp" || String.eqb tag "Permanent"
  end.

(** The constructor call [load_file] makes for a row, from its tag,
    its name and email, its pay field read as a float and its sixth
    field (read with [int] for an Executive or a Manager). *)
Definition call_of_row (tag name email : string) (amount : float) (last : string)
  : result call :=
  if String.eqb tag "Executive" then
    match Num.int last with
    | Ok role => Ok (NewExecutive name email amount (PyInt role))
    | Raise x => Raise x
    end
  else if String.eqb tag "Manager" then
    match Num.int last with
    | Ok department => Ok (NewManager name email amount (PyInt department))
    | Raise x => Raise x
    end
  else if String.eqb tag "Temp" then Ok (NewTemporary name email amount last)
  else Ok (NewPermanent name email amount last).



(** Sample files. *)
Definition two_lines_second_short : string :=
  "Permanent,Cara,cara@acme-machining.com,x.png,20.5,2020-01-15" ++ String Csv.LF ""
  ++ "Permanent,Al" ++ String Csv.LF "".

Definition two_good_lines : string :=
  "Executive,Ann,ann@acme-machining.com,x.png,60000,1" ++ String Csv.LF ""
  ++ "Temp,Dan,dan@acme-machining.com,x.png,15,2024-06-30" ++ String Csv.LF "".

Definition unknown_tag_after_good_line : string :=
  "Permanent,Cara,cara@acme-machining.com,x.png,20.5,2020-01-15" ++ String Csv.LF ""
  ++ "Intern,Ed,ed@acme-machining.com,x.png,16,2025-01-01" ++ String Csv.LF "".


Definition seven_fields : string :=
  "Manager,Bob,bob@acme-machining.com,x.png,75000.5,3,extra" ++ String Csv.LF "".

End Roster.

(* ================================================================= *)
(** ** gui.py: the edit forms and [MainWindow.data_to_rows]

    A form holds a reference to the record it edits, the text of its
    line edits and whether it is shown.  What [print] writes is kept
    with it.  The Qt calls that only lay widgets out
    ([refresh_width], [addRow], [setPixmap]) change none of these. *)

Module Forms_py.

Import Employee_py Gui_py Roster.

Record form (E : Type) : Type := mkForm {
  _employee : E;
  _name_edit : string;
  _email_edit : string;
  _image_path_edit : string;
  _pay_edit : string;
  visible : bool;
  stdout : list string
}.

Arguments mkForm {E} _ _ _ _ _ _ _.
Arguments _employee {E} _.
Arguments _name_edit {E} _.
Arguments _email_edit {E} _.
Arguments _image_path_edit {E} _.
Arguments _pay_edit {E} _.
Arguments visible {E} _.
Arguments stdout {E} _.

(** The same form, seen with another view of its record. *)
Definition retarget {E F : Type} (fm : form E) (e : F) : form F :=
  mkForm e (_name_edit fm) (_email_edit fm) (_image_path_edit fm) (_pay_edit fm)
    (visible fm) (stdout fm).

(** [print(s)] *)
Definition print {E : Type} (s : string) : M (form E) unit :=
  fun fm =>
    (Ok tt,
     mkForm (_employee fm) (_name_edit fm) (_email_edit fm) (_image_path_edit fm)
       (_pay_edit fm) (visible fm) (stdout fm ++ [s])).

(** [self.setVisible(b)] *)
Definition setVisible {E : Type} (b : bool) : M (form E) unit :=
  fun fm =>
    (Ok tt,
     mkForm (_employee fm) (_name_edit fm) (_email_edit fm) (_image_path_edit fm)
       (_pay_edit fm) b (stdout fm)).

(** An assignment to an attribute of [self._employee]. *)
Definition on_employee {E A : Type} (m : M E A) : M (form E) A :=
  fun fm => let (r, e) := m (_employee fm) in (r, retarget fm e).

(** [try: body / except ValueError as message: handler message]. *)
Definition try_ValueError {S : Type} (body : M S unit) (handler : string -> M S unit)
  : M S unit :=
  fun s =>
    match body s with
    | (Raise (ValueError message), s') => handler message s'
    | outcome => outcome
    end.

(** [EmployeeForm.update_employee] *)
Definition EmployeeForm_update_employee : M (form Employee) unit :=
  try_ValueError
    (name <- (fun fm => (Ok (_name_edit fm), fm)) ;;
     on_employee (name_setter name) ;;
     email <- (fun fm => (Ok (_email_edit fm), fm)) ;;
     on_employee (email_setter email) ;;
     image <- (fun fm => (Ok (_image_path_edit fm), fm)) ;;
     on_employee (image_setter image) ;;
     setVisible false)
    (fun message => print message).

(** [super().update_employee()] from a form whose record is of a class
    derived from [Employee]: the same form, the same record. *)
Definition super_update_employee {E : Type} (view : E -> Employee)
  (update : E -> Employee -> E) : M (form E) unit :=
  fun fm =>
    let (r, fm') := EmployeeForm_update_employee (retarget fm (view (_employee fm))) in
    (r, retarget fm' (update (_employee fm) (_employee fm'))).

(** [SalariedForm.update_employee], which [ManagerForm] inherits. *)
Definition SalariedForm_update_employee : M (form Salaried) unit :=
  try_ValueError
    (super_update_employee salaried_base (fun s b => mkSalaried b (_yearly s)) ;;
     text <- (fun fm => (Ok (_pay_edit fm), fm)) ;;
     yearly <- lift (Num.float_of_str text) ;;
     on_employee (yearly_setter yearly) ;;
     print "updated_yearly" ;;
     setVisible false)
    (fun _ => print "Invalid data type").

(** [ExecutiveForm.update_employee] *)
Definition ExecutiveForm_update_employee : M (form Salaried) unit :=
  try_ValueError
    (SalariedForm_update_employee ;;
     setVisible false)
    (fun message => print message).

(** [HourlyForm.update_employee], which [PermanentForm] and [TempForm]
    inherit. *)
Definition HourlyForm_update_employee : M (form Hourly) unit :=
  try_ValueError
    (super_update_employee hourly_base (fun h b => mkHourly b (_hourly_wage h)) ;;
     text <- (fun fm => (Ok (_pay_edit fm), fm)) ;;
     hourly_wage <- lift (Num.float_of_str text) ;;
     on_employee (hourly_wage_setter hourly_wage) ;;
     print "updated_hourly" ;;
     setVisible false)
    (fun _ => print "Invalid data type").

(** The method a form runs on a part of the record, on the whole
    record. *)
Definition on_part {E : Type} (part : E) (whole : E -> instance)
  (m : M (form E) unit) : M (form instance) unit :=
  fun fm => let (r, fm') := m (retarget fm part) in (r, retarget fm' (whole (_employee fm'))).

(** The [update_employee] of the form [edit_employee] opens for the
    record: an [ExecutiveForm], a [ManagerForm], a [PermanentForm] or a
    [TempForm], by the class of the record. *)
Definition update_employee : M (form instance) unit :=
  fun fm =>
    match _employee fm with
    | Executive s role =>
        on_part s (fun s' => Executive s' role) ExecutiveForm_update_employee fm
    | Manager s department =>
        on_part s (fun s' => Manager s' department) SalariedForm_update_employee fm
    | Permanent h hired_date =>
        on_part h (fun h' => Permanent h' hired_date) HourlyForm_update_employee fm
    | Temporary h last_day =>
        on_part h (fun h' => Temporary h' last_day) HourlyForm_update_employee fm
    end.

(** [fill_in] of the form of the record's class, then [show()]: the
    line edits hold the fields of the record.  [SalariedForm] and
    [HourlyForm] write the pay field into the pay edit; [ManagerForm]
    then replaces its pay edit by a new, empty one. *)
Definition fill_in (e : instance) (out : list string) : form instance :=
  mkForm e (_name (base e)) (_email (base e)) (_image (base e))
    (match e with
     | Executive s _ => Num.repr (_yearly s)
     | Manager _ _ => ""
     | Permanent h _ | Temporary h _ => Num.repr (_hourly_wage h)
     end)
    true out.

(** [MainWindow.edit_employee] on the rows the table reports selected:
    nothing without a selection, else the form of the first one. *)
Definition edit_employee (selected : list nat) (w : world) (out : list string)
  : result (option (form instance)) :=
  match selected with
  | [] => Ok None
  | index :: _ =>
      match nth_error (_data w) index with
      | Some e => Ok (Some (fill_in e out))
      | None => Raise (IndexError "list index out of range")
      end
  end.

(** A cell of a row of [data_to_rows]: an [int] or a [str]. *)
Inductive cell : Type :=
| IntCell (n : Z)
| StrCell (s : string).

(** What [data_to_rows] comes to: its list, or the [AttributeError] of
    reading an attribute the record does not have. *)
Inductive outcome (A : Type) : Type :=
| Returned (a : A)
| AttributeError (message : string).

Arguments Returned {A} a.
Arguments AttributeError {A} message.

(** [MainWindow.data_to_rows].  The attribute of an hourly record is
    [hourly_wage]; the method reads [e.hourly]. *)
Fixpoint data_to_rows (data : list instance) : outcome (list (list cell)) :=
  match data with
  | [] => Returned []
  | e :: rest =>
      let row := [IntCell (id_number (base e)); StrCell (type_name e);
                  StrCell (_name (base e))] in
      match e with
      | Executive s _ | Manager s _ =>
          match data_to_rows rest with
          | Returned rows =>
              Returned ((row ++ [StrCell (Num.repr (_yearly s))]
                         ++ [StrCell (_email (base e))]) :: rows)
          | AttributeError message => AttributeError message
          end
      | Permanent _ _ | Temporary _ _ =>
          AttributeError ("'" ++ type_name e ++ "' object has no attribute 'hourly'")
      end
  end.

End Forms_py.

(* ================================================================= *)
(** ** Vocabulary of the further statements *)

Module Checks.

Import Employee_py Gui_py Roster.

(** Every stored field passes the test its setter makes. *)
Definition valid_base (b : Employee) : bool :=
  is_ok (name_check (_name b)) && is_ok (email_check (_email b))
  && is_ok (image_check (_image b)).

Definition valid (e : instance) : bool :=
  valid_base (base e)
  && match e with
     | Executive s _ | Manager s _ => is_ok (yearly_check (_yearly s))
     | Permanent h _ | Temporary h _ => is_ok (hourly_wage_check (_hourly_wage h))
     end.

(** The pay field of a record, whatever its class. *)
Definition pay_basis (e : instance) : float :=
  match e with
  | Executive s _ | Manager s _ => _yearly s
  | Permanent h _ | Temporary h _ => _hourly_wage h
  end.

Definition identity (e : instance) : Z := id_number (base e).

(** The records of the roster are valid and were numbered before the
    counter reached its value. *)
Definition roster_ok (w : world) : Prop :=
  Forall (fun e => valid e = true /\ identity e < Employee_id_number w) (_data w).

Definition frame_ok (f : frame) : Prop :=
  roster_ok (globals f)
  /\ forall e, employee f = Some e ->
               valid e = true /\ identity e < Employee_id_number (globals f).

(** A step of [load_file] keeps the frame in order and never lowers
    the counter. *)
Definition preserves {A : Type} (m : M frame A) : Prop :=
  forall f,
    frame_ok f ->
    frame_ok (snd (m f))
    /\ Employee_id_number (globals f) <= Employee_id_number (globals (snd (m f))).

(** The class name of the record [load_file] builds under a tag. *)
Definition class_of_tag (tag : string) : string :=
  if String.eqb tag "Temp" then "Temporary" else tag.

(** The arguments of a call are accepted by the tests of its class. *)
Definition accepted (a : call) : bool :=
  is_ok (name_check (call_name a)) && is_ok (email_check (call_email a))
  && match a with
     | NewExecutive _ _ yearly role =>
         is_ok (yearly_check yearly)
         && py_in role (map (fun s => PyInt (Role_value s)) Role_members)
     | NewManager _ _ yearly department =>
         is_ok (yearly_check yearly)
         && py_in department (map (fun d => PyInt (Department_value d)) Department_members)
     | NewPermanent _ _ hourly_wage _ | NewTemporary _ _ hourly_wage _ =>
         is_ok (hourly_wage_check hourly_wage)
     end.

(** No field of the record holds a comma, quote or line end. *)
Definition plain_record (e : instance) : bool :=
  plain (_name (base e)) && plain (_email (base e)) && plain (_image (base e))
  && plain (class_text e).

(** [n] consecutive integers from [c]. *)
Fixpoint count_from (c : Z) (n : nat) : list Z :=
  match n with
  | O => []
  | S n' => c :: count_from (c + 1) n'
  end.

(** The amount a pay edit gives a record: its text read with
    [float], when it reads and passes the test of the setter. *)
Definition parsed_pay (check : float -> result unit) (text : string) : option float :=
  match Num.float_of_str text with
  | Ok amount => if is_ok (check amount) then Some amount else None
  | Raise _ => None
  end.

(** The four line edits of a form. *)
Definition edits {E : Type} (fm : Forms_py.form E) : list string :=
  [Forms_py._name_edit fm; Forms_py._email_edit fm; Forms_py._image_path_edit fm;
   Forms_py._pay_edit fm].

(** A further sample call. *)
Definition eve : call :=
  NewPermanent "Eve" "eve@acme-machining.com" 31.25 "2019-09-01".

End Checks.

Import Employee_py Gui_py Roster.

(* ================================================================= *)
(** ** Lemmas on computations *)

Lemma for_each_app {S A : Type} (xs ys : list A) (body : A -> M S unit) (s : S) :
  for_each (xs ++ ys) body s =
  match for_each xs body s with
  | (Ok _, s') => for_each ys body s'
  | (Raise e, s') => (Raise e, s')
  end.
Proof.
  revert s. induction xs as [|x xs IH]; intros s; simpl.
  - reflexivity.
  - unfold bind. destruct (body x s) as [[[]|e] s']; [apply IH | reflexivity].
Qed.

(* ================================================================= *)
(** ** Lemmas on strings *)

Lemma prefix_app (sub s : string) :
  String.prefix sub s = true <-> exists post, s = (sub ++ post)%string.
Proof.
  revert s. induction sub as [|c sub IH]; intros s.
  - split; [intros _; exists s; reflexivity | intros _; destruct s; reflexivity].
  - destruct s as [|c' s]; simpl.
    + split; [discriminate | intros [post H]; discriminate].
    + destruct (ascii_dec c c') as [->|Hne].
      * rewrite IH. split; intros [post H]; exists post; [now rewrite H | now inversion H].
      * split; [discriminate | intros [post H]; inversion H; subst; now elim Hne].
Qed.

Lemma contains_app (sub s : string) :
  Str.contains sub s = true <-> exists pre post, s = (pre ++ sub ++ post)%string.
Proof.
  induction s as [|c s IH].
  - change (Str.contains sub "") with (String.prefix sub "" || false).
    rewrite orb_false_r, prefix_app. split.
    + intros [post H]. exists "", post. exact H.
    + intros [pre [post H]]. destruct pre; [exists post; exact H | discriminate].
  - change (Str.contains sub (String c s))
      with (String.prefix sub (String c s) || Str.contains sub s).
    rewrite orb_true_iff, prefix_app, IH. split.
    + intros [[post H] | [pre [post H]]].
      * exists "", post. exact H.
      * exists (String c pre), post. simpl. now rewrite H.
    + intros [pre [post H]]. destruct pre as [|c' pre]; simpl in H.
      * left. exists post. exact H.
      * right. exists pre, post. now inversion H.
Qed.

(* ================================================================= *)
(** ** Lemmas on the constructors *)

Lemma Employee__init__eq (name email : string) (c : Z) :
  Employee__init__ name email c =
  match name_check name, email_check email with
  | Ok _, Ok _ => (Ok (mkEmployee c name email IMAGE_PLACEHOLDER), c + 1)
  | Ok _, Raise e => (Raise e, c + 1)
  | Raise e, _ => (Raise e, c + 1)
  end.
Proof.
  unfold Employee__init__. run.
  destruct (name_check name); [destruct (email_check email)|]; reflexivity.
Qed.

Lemma Salaried__init__eq (name email : string) (yearly : float) (c : Z) :
  Salaried__init__ name email yearly c =
  match Employee__init__ name email c with
  | (Ok b, c') =>
      if (yearly <? 50000)%float
      then (Raise (ValueError "Yearly salary must be over $50,000"), c')
      else (Ok (mkSalaried b yearly), c')
  | (Raise e, c') => (Raise e, c')
  end.
Proof.
  unfold Salaried__init__, yearly_check. run.
  destruct (Employee__init__ name email c) as [[b|e] c']; [|reflexivity].
  destruct (yearly <? 50000)%float; reflexivity.
Qed.

Lemma Hourly__init__eq (name email : string) (hourly_wage : float) (c : Z) :
  Hourly__init__ name email hourly_wage c =
  match Employee__init__ name email c with
  | (Ok b, c') =>
      if ((hourly_wage <? 15) || (99.99 <? hourly_wage))%float
      then (Raise (ValueError "Hourly wage must be between $15 and $99.99 (inclusive)"), c')
      else (Ok (mkHourly b hourly_wage), c')
  | (Raise e, c') => (Raise e, c')
  end.
Proof.
  unfold Hourly__init__, hourly_wage_check. run.
  destruct (Employee__init__ name email c) as [[b|e] c']; [|reflexivity].
  destruct ((hourly_wage <? 15) || (99.99 <? hourly_wage))%float; reflexivity.
Qed.

(** The role test and [Role(role)], in one: a code among the values
    gives its member; anything else is refused. *)
Lemma Executive__init__eq (name email : string) (yearly : float) (role : pyobj) (c : Z) :
  Executive__init__ name email yearly role c =
  match Salaried__init__ name email yearly c with
  | (Ok s, c') =>
      match role with
      | PyInt n =>
          match find (fun r => n =? Role_value r) Role_members with
          | Some r => (Ok (Executive s r), c')
          | None => (Raise (InvalidRoleException (py_str role ++ " is not a valid role.")), c')
          end
      | _ => (Raise (InvalidRoleException (py_str role ++ " is not a valid role.")), c')
      end
  | (Raise e, c') => (Raise e, c')
  end.
Proof.
  unfold Executive__init__. run.
  destruct (Salaried__init__ name email yearly c) as [[s|e] c']; [|reflexivity].
  destruct role as [n|r|d]; try reflexivity.
  unfold py_in, Role_call, Role_members. cbn [map existsb find py_eq Role_value].
  destruct (n =? 1); [reflexivity|].
  destruct (n =? 2); [reflexivity|].
  destruct (n =? 3); reflexivity.
Qed.

Lemma Manager__init__eq (name email : string) (yearly : float) (department : pyobj) (c : Z) :
  Manager__init__ name email yearly department c =
  match Salaried__init__ name email yearly c with
  | (Ok s, c') =>
      match department with
      | PyInt n =>
          match find (fun d => n =? Department_value d) Department_members with
          | Some d => (Ok (Manager s d), c')
          | None =>
              (Raise (InvalidDepartmentException
                        (py_str department ++ " is not a valid department.")), c')
          end
      | _ => (Raise (InvalidDepartmentException
                       (py_str department ++ " is not a valid department.")), c')
      end
  | (Raise e, c') => (Raise e, c')
  end.
Proof.
  unfold Manager__init__. run.
  destruct (Salaried__init__ name email yearly c) as [[s|e] c']; [|reflexivity].
  destruct department as [n|r|d]; try reflexivity.
  unfold py_in, Department_call, Department_members.
  cbn [map existsb find py_eq Department_value].
  destruct (n =? 1); [reflexivity|].
  destruct (n =? 2); [reflexivity|].
  destruct (n =? 3); [reflexivity|].
  destruct (n =? 4); [reflexivity|].
  destruct (n =? 5); reflexivity.
Qed.

Lemma Permanent__init__eq (name email : string) (w : float) (hired_date : string) (c : Z) :
  Permanent__init__ name email w hired_date c =
  match Hourly__init__ name email w c with
  | (Ok h, c') => (Ok (Permanent h hired_date), c')
  | (Raise e, c') => (Raise e, c')
  end.
Proof. reflexivity. Qed.

Lemma Temporary__init__eq (name email : string) (w : float) (last_day : string) (c : Z) :
  Temporary__init__ name email w last_day c =
  match Hourly__init__ name email w c with
  | (Ok h, c') => (Ok (Temporary h last_day), c')
  | (Raise e, c') => (Raise e, c')
  end.
Proof. reflexivity. Qed.

(** Every attempt moves the counter by one, and an instance that comes
    out carries the value the counter had. *)
Lemma Employee__init__counter (name email : string) (c : Z) :
  snd (Employee__init__ name email c) = c + 1
  /\ forall b, fst (Employee__init__ name email c) = Ok b -> id_number b = c.
Proof.
  rewrite Employee__init__eq.
  destruct (name_check name); [destruct (email_check email)|]; simpl;
    (split; [reflexivity | intros b H; inversion H; reflexivity]).
Qed.

Lemma construct_counter (a : call) (c : Z) :
  snd (construct a c) = c + 1
  /\ forall e, fst (construct a c) = Ok e -> id_number (base e) = c.
Proof.
  destruct a as [name email y role | name email y dep | name email w d | name email w d];
    cbn [construct];
    rewrite ?Executive__init__eq, ?Manager__init__eq, ?Permanent__init__eq,
      ?Temporary__init__eq, ?Salaried__init__eq, ?Hourly__init__eq;
    destruct (Employee__init__counter name email c) as [Hc Hid];
    destruct (Employee__init__ name email c) as [[b|x] c']; simpl in Hc; subst c';
    try (split; [reflexivity | discriminate]);
    specialize (Hid b eq_refl).
  - destruct (y <? 50000)%float; [split; [reflexivity | discriminate]|].
    destruct role as [n|r|d]; try (split; [reflexivity | discriminate]).
    destruct (find _ _); simpl; (split; [reflexivity | intros e H; inversion H; exact Hid]).
  - destruct (y <? 50000)%float; [split; [reflexivity | discriminate]|].
    destruct dep as [n|r|d]; try (split; [reflexivity | discriminate]).
    destruct (find _ _); simpl; (split; [reflexivity | intros e H; inversion H; exact Hid]).
  - destruct ((w <? 15) || (99.99 <? w))%float; simpl;
      (split; [reflexivity | intros e H; inversion H; exact Hid]).
  - destruct ((w <? 15) || (99.99 <? w))%float; simpl;
      (split; [reflexivity | intros e H; inversion H; exact Hid]).
Qed.

Lemma attempts_outcomes (calls : list call) (c : Z) :
  snd (attempts calls c) = c + Z.of_nat (List.length calls)
  /\ forall k e, nth_error (fst (attempts calls c)) k = Some (Ok e) ->
                 id_number (base e) = c + Z.of_nat k.
Proof.
  revert c. induction calls as [|a rest IH]; intros c.
  - split; [simpl; lia | intros [|k] e H; discriminate].
  - cbn [attempts]. destruct (construct_counter a c) as [Hc Hid].
    destruct (construct a c) as [r c1]. simpl in Hc, Hid. subst c1.
    destruct (IH (c + 1)) as [Hc' Hid'].
    destruct (attempts rest (c + 1)) as [rs c2]. simpl in Hc', Hid' |- *.
    split; [lia|].
    intros [|k] e H; simpl in H.
    + inversion H; subst r. rewrite (Hid e eq_refl). lia.
    + rewrite (Hid' k e H). lia.
Qed.

Lemma identities_bounds (outcomes : list (result instance)) (c : Z) :
  (forall k e, nth_error outcomes k = Some (Ok e) -> id_number (base e) = c + Z.of_nat k) ->
  Forall (fun i => c <= i) (identities outcomes)
  /\ Sorted.StronglySorted Z.lt (identities outcomes).
Proof.
  revert c. induction outcomes as [|r rest IH]; intros c H.
  - split; constructor.
  - assert (Hrest : forall k e, nth_error rest k = Some (Ok e) ->
                                id_number (base e) = (c + 1) + Z.of_nat k).
    { intros k e Hk. rewrite (H (S k) e Hk). lia. }
    destruct (IH (c + 1) Hrest) as [Hge Hsorted].
    destruct r as [e|x]; cbn [identities].
    + rewrite (H 0%nat e eq_refl). split.
      * constructor; [lia|]. eapply Forall_impl; [|exact Hge]. simpl. intros; lia.
      * constructor; [exact Hsorted|]. eapply Forall_impl; [|exact Hge]. simpl. intros; lia.
    + split; [|exact Hsorted]. eapply Forall_impl; [|exact Hge]. simpl. intros; lia.
Qed.

(* ================================================================= *)
(** ** Identity numbers (C2) *)

(** C2, as the code has it: over any sequence of construction attempts
    started with the counter at [c], the attempt at position [k] that
    succeeds returns a record whose identity is [c + k], the counter
    ends at [c] plus the number of attempts, failed ones included, and
    the identities of the successes are strictly increasing. *)
Theorem identity_numbering (calls : list call) (c : Z) (k : nat) (e : instance) :
  nth_error (fst (attempts calls c)) k = Some (Ok e) ->
  id_number (base e) = c + Z.of_nat k
  /\ snd (attempts calls c) = c + Z.of_nat (List.length calls)
  /\ Sorted.StronglySorted Z.lt (identities (fst (attempts calls c))).
Proof.
  intros H. destruct (attempts_outcomes calls c) as [Hc Hid].
  split; [exact (Hid k e H)|]. split; [exact Hc|].
  exact (proj2 (identities_bounds _ c Hid)).
Qed.

Lemma identity_numbering_witness :
  exists e,
    nth_error (fst (attempts [ann; nameless; cara] 0)) 2 = Some (Ok e)
    /\ id_number (base e) = 2
    /\ snd (attempts [ann; nameless; cara] 0) = 3.
Proof.
  eexists. split; [vm_compute; reflexivity|].
  destruct (identity_numbering [ann; nameless; cara] 0 2 _ eq_refl) as [Hid [Hc _]].
  split; [exact Hid | exact Hc].
Defined.

(** C2 as stated fails: a construction that fails on its blank name has
    already taken a value from the counter, and the success after it is
    two above the success before it. *)
Lemma failed_construction_consumes_identity :
  is_ok (fst (construct nameless 0)) = false
  /\ snd (construct nameless 0) = 1
  /\ identities (fst (attempts [ann; nameless; cara] 0)) = [0; 2].
Proof. vm_compute. repeat split. Qed.

(* ================================================================= *)
(** ** Bounds on the pay fields (C5) *)

(** C5: setting the yearly amount of a Salaried record raises
    [ValueError] exactly when the amount is below 50000, setting the
    hourly wage of an Hourly record exactly when the wage is below 15
    or above 99.99, and a setter that raises leaves the record as it
    was; a construction whose name and email are valid raises
    [ValueError] under the same conditions.  49999.99, 14.99 and 100.00
    are refused; 50000, any larger amount up to infinity, and 99.99 are
    accepted. *)
Theorem pay_basis_bounds :
  (forall (y : float) (self : Salaried),
      yearly_setter y self =
      if (y <? 50000)%float
      then (Raise (ValueError "Yearly salary must be over $50,000"), self)
      else (Ok tt, mkSalaried (salaried_base self) y))
  /\ (forall (w : float) (self : Hourly),
      hourly_wage_setter w self =
      if ((w <? 15) || (99.99 <? w))%float
      then (Raise (ValueError "Hourly wage must be between $15 and $99.99 (inclusive)"),
            self)
      else (Ok tt, mkHourly (hourly_base self) w))
  /\ (forall (a : call) (c : Z),
      name_check (call_name a) = Ok tt ->
      email_check (call_email a) = Ok tt ->
      raises_ValueError (fst (construct a c)) =
      match a with
      | NewExecutive _ _ y _ | NewManager _ _ y _ => (y <? 50000)%float
      | NewPermanent _ _ w _ | NewTemporary _ _ w _ => ((w <? 15) || (99.99 <? w))%float
      end)
  /\ (is_ok (yearly_check 49999.99) = false
      /\ is_ok (yearly_check 50000) = true
      /\ is_ok (yearly_check 1e300) = true
      /\ is_ok (yearly_check infinity) = true)
  /\ (is_ok (hourly_wage_check 14.99) = false
      /\ is_ok (hourly_wage_check 15) = true
      /\ is_ok (hourly_wage_check 99.99) = true
      /\ is_ok (hourly_wage_check 100.00) = false).
Proof.
  split; [|split; [|split; [|split]]].
  - intros y self. unfold yearly_setter, yearly_check. run.
    destruct (y <? 50000)%float; reflexivity.
  - intros w self. unfold hourly_wage_setter, hourly_wage_check. run.
    destruct ((w <? 15) || (99.99 <? w))%float; reflexivity.
  - intros a c Hn He.
    destruct a as [name email y role | name email y dep | name email w d | name email w d];
      cbn [construct call_name call_email] in *;
      rewrite ?Executive__init__eq, ?Manager__init__eq, ?Permanent__init__eq,
        ?Temporary__init__eq, ?Salaried__init__eq, ?Hourly__init__eq,
        Employee__init__eq, Hn, He.
    + destruct (y <? 50000)%float; [reflexivity|].
      destruct role as [n|r|d]; try reflexivity. destruct (find _ _); reflexivity.
    + destruct (y <? 50000)%float; [reflexivity|].
      destruct dep as [n|r|d]; try reflexivity. destruct (find _ _); reflexivity.
    + destruct ((w <? 15) || (99.99 <? w))%float; reflexivity.
    + destruct ((w <? 15) || (99.99 <? w))%float; reflexivity.
  - repeat split.
  - repeat split.
Qed.

Lemma pay_basis_bounds_witness :
  name_check (call_name ann) = Ok tt
  /\ email_check (call_email ann) = Ok tt
  /\ raises_ValueError (fst (construct ann 7)) = false
  /\ raises_ValueError
       (fst (construct (NewTemporary "Dan" "dan@acme-machining.com" 100.00 "2024-06-30") 7))
     = true.
Proof.
  split; [reflexivity|]. split; [reflexivity|]. split.
  - exact (proj1 (proj2 (proj2 pay_basis_bounds)) ann 7 eq_refl eq_refl).
  - exact (proj1 (proj2 (proj2 pay_basis_bounds))
             (NewTemporary "Dan" "dan@acme-machining.com" 100.00 "2024-06-30") 7
             eq_refl eq_refl).
Defined.

(* ================================================================= *)
(** ** Pay (C6) *)

(** C6: [calc_pay] is the yearly amount divided by 52.0 on a Salaried
    record and the hourly wage times 40.0 on an Hourly one, whatever
    record it is given and in particular on the record a construction
    returns, with the binary64 quotient or product returned as it is;
    a yearly amount of 52000 gives 1000.0 and a wage of 20 gives 800.0. *)
Theorem calc_pay_formula :
  (forall e : instance,
      calc_pay e =
      match e with
      | Executive s _ | Manager s _ => (_yearly s / 52.0)%float
      | Permanent h _ | Temporary h _ => (_hourly_wage h * 40.0)%float
      end)
  /\ (forall (a : call) (c c' : Z) (e : instance),
      construct a c = (Ok e, c') ->
      calc_pay e =
      match a with
      | NewExecutive _ _ y _ | NewManager _ _ y _ => (y / 52.0)%float
      | NewPermanent _ _ w _ | NewTemporary _ _ w _ => (w * 40.0)%float
      end)
  /\ (forall (b : Employee) (r : Role) (d : Department),
      calc_pay (Executive (mkSalaried b 52000) r) = 1000.0%float
      /\ calc_pay (Manager (mkSalaried b 52000) d) = 1000.0%float)
  /\ (forall (b : Employee) (day : string),
      calc_pay (Permanent (mkHourly b 20) day) = 800.0%float
      /\ calc_pay (Temporary (mkHourly b 20) day) = 800.0%float).
Proof.
  split; [|split; [|split]].
  - intros [s r | s d | h day | h day]; reflexivity.
  - intros a c c' e H.
    destruct a as [name email y role | name email y dep | name email w d | name email w d];
      cbn [construct] in H;
      rewrite ?Executive__init__eq, ?Manager__init__eq, ?Permanent__init__eq,
        ?Temporary__init__eq, ?Salaried__init__eq, ?Hourly__init__eq in H;
      destruct (Employee__init__ name email c) as [[b|x] c1]; try discriminate.
    + destruct (y <? 50000)%float; [discriminate|].
      destruct role as [n|r|d]; try discriminate.
      destruct (find _ _); inversion H; reflexivity.
    + destruct (y <? 50000)%float; [discriminate|].
      destruct dep as [n|r|d]; try discriminate.
      destruct (find _ _); inversion H; reflexivity.
    + destruct ((w <? 15) || (99.99 <? w))%float; inversion H; reflexivity.
    + destruct ((w <? 15) || (99.99 <? w))%float; inversion H; reflexivity.
  - intros b r d. split; reflexivity.
  - intros b day. split; reflexivity.
Qed.

Lemma calc_pay_formula_witness :
  exists e c',
    construct bob 4 = (Ok e, c') /\ calc_pay e = (75000.5 / 52.0)%float.
Proof.
  eexists. eexists. split; [vm_compute; reflexivity|].
  exact (proj1 (proj2 calc_pay_formula) bob 4 _ _ eq_refl).
Defined.

(* ================================================================= *)
(** ** The email (C7) *)

Lemma with_base_same (e : instance) : with_base e (base e) = e.
Proof. destruct e as [[b y] r | [b y] d | [b w] day | [b w] day]; reflexivity. Qed.

Lemma email_check_ok (s : string) :
  email_check s = Ok tt <->
  s <> "" /\ exists pre post, s = (pre ++ "@acme-machining.com" ++ post)%string.
Proof.
  unfold email_check. rewrite <- contains_app.
  destruct s as [|c s]; cbn [Str.is_blank].
  - split; [discriminate | intros [H _]; now elim H].
  - destruct (Str.contains "@acme-machining.com" (String c s)); cbn [negb]; split.
    + intros _. split; [discriminate | reflexivity].
    + reflexivity.
    + discriminate.
    + intros [_ H]. discriminate.
Qed.

(** C7: the email test passes exactly on the non-empty strings in
    which [@acme-machining.com] occurs somewhere, letter case as
    written, and fails with [ValueError] otherwise; the setter stores
    the new email when the test passes and leaves the record, its
    previous email included, untouched when it fails, on a base record
    and on an instance of any of the four classes; with a valid name,
    the base constructor succeeds exactly when the test passes, and a
    construction of any of the four classes raises what the test
    raises when it fails. *)
Theorem email_validation :
  (forall s : string,
      email_check s = Ok tt <->
      s <> "" /\ exists pre post, s = (pre ++ "@acme-machining.com" ++ post)%string)
  /\ (forall s : string,
      email_check s = Ok tt \/ raises_ValueError (email_check s) = true)
  /\ (forall (s : string) (self : Employee),
      email_setter s self =
      (email_check s,
       if is_ok (email_check s)
       then mkEmployee (id_number self) (_name self) s (_image self)
       else self))
  /\ (forall (s : string) (e : instance),
      on_base (email_setter s) e =
      (email_check s,
       if is_ok (email_check s)
       then with_base e (mkEmployee (id_number (base e)) (_name (base e)) s
                           (_image (base e)))
       else e))
  /\ (forall (name s : string) (c : Z),
      name_check name = Ok tt ->
      fst (Employee__init__ name s c) =
      match email_check s with
      | Ok _ => Ok (mkEmployee c name s IMAGE_PLACEHOLDER)
      | Raise x => Raise x
      end)
  /\ (forall (a : call) (c : Z) (x : exn),
      name_check (call_name a) = Ok tt ->
      email_check (call_email a) = Raise x ->
      construct a c = (Raise x, c + 1))
  /\ (is_ok (email_check "a@ACME-MACHINING.COM") = false
      /\ is_ok (email_check "a@acme-machining.co") = false
      /\ is_ok (email_check "@acme-machining.com.example.org") = true
      /\ is_ok (email_check "a@acme-machining.com") = true).
Proof.
  assert (Hset : forall s self,
             email_setter s self =
             (email_check s,
              if is_ok (email_check s)
              then mkEmployee (id_number self) (_name self) s (_image self)
              else self)).
  { intros s self. unfold email_setter. run.
    destruct (email_check s) as [[]|x]; reflexivity. }
  split; [exact email_check_ok|]. split; [|split; [exact Hset|split; [|split; [|split]]]].
  - intros s. unfold email_check.
    destruct (Str.is_blank s); [right; reflexivity|].
    destruct (negb _); [right | left]; reflexivity.
  - intros s e. unfold on_base, zoom. rewrite Hset.
    destruct (is_ok (email_check s)); [reflexivity|].
    now rewrite with_base_same.
  - intros name s c Hn. rewrite Employee__init__eq, Hn.
    destruct (email_check s); reflexivity.
  - intros a c x Hn He.
    destruct a as [name email y role | name email y dep | name email w d | name email w d];
      cbn [construct call_name call_email] in *;
      rewrite ?Executive__init__eq, ?Manager__init__eq, ?Permanent__init__eq,
        ?Temporary__init__eq, ?Salaried__init__eq, ?Hourly__init__eq,
        Employee__init__eq, Hn, He; reflexivity.
  - repeat split.
Qed.

Lemma email_validation_witness :
  name_check "Eve" = Ok tt
  /\ fst (Employee__init__ "Eve" "eve@elsewhere.org" 3)
     = Raise (ValueError "Email must be from @acme-machining.com").
Proof.
  split; [reflexivity|].
  exact (proj1 (proj2 (proj2 (proj2 (proj2 email_validation))))
           "Eve" "eve@elsewhere.org" 3 eq_refl).
Defined.

(* ================================================================= *)
(** ** Role and department arguments (C9) *)

(** C9: once the base fields and the yearly amount have passed, a
    Manager construction given an integer succeeds exactly when the
    integer is one of 1..5 and stores the member of [Department] with
    that value, and given a member of [Department] itself it raises
    [InvalidDepartmentException]; an Executive construction accepts
    exactly the integers 1..3, storing the member of [Role] with that
    value, and refuses a member of [Role]. *)
Theorem enum_argument_by_raw_code
  (name email : string) (y : float) (c c' : Z) (s : Salaried) :
  Salaried__init__ name email y c = (Ok s, c') ->
  (forall n : Z,
      (1 <= n <= 5 ->
       exists d, Department_value d = n
                 /\ Manager__init__ name email y (PyInt n) c = (Ok (Manager s d), c'))
      /\ (~ 1 <= n <= 5 ->
          Manager__init__ name email y (PyInt n) c =
          (Raise (InvalidDepartmentException
                    (Str.of_Z n ++ " is not a valid department.")), c')))
  /\ (forall d : Department,
      Manager__init__ name email y (PyDepartment d) c =
      (Raise (InvalidDepartmentException
                ("Department." ++ Department_name d ++ " is not a valid department.")), c'))
  /\ (forall n : Z,
      (1 <= n <= 3 ->
       exists r, Role_value r = n
                 /\ Executive__init__ name email y (PyInt n) c = (Ok (Executive s r), c'))
      /\ (~ 1 <= n <= 3 ->
          Executive__init__ name email y (PyInt n) c =
          (Raise (InvalidRoleException (Str.of_Z n ++ " is not a valid role.")), c')))
  /\ (forall r : Role,
      Executive__init__ name email y (PyRole r) c =
      (Raise (InvalidRoleException ("Role." ++ Role_name r ++ " is not a valid role.")), c')).
Proof.
  intros Hs. split; [|split; [|split]].
  - intros n. rewrite Manager__init__eq, Hs.
    unfold Department_members. cbn [find Department_value py_str]. split.
    + intros Hn.
      assert (n = 1 \/ n = 2 \/ n = 3 \/ n = 4 \/ n = 5) as [->|[->|[->|[->| ->]]]] by lia;
        eexists; (split; [|reflexivity]); reflexivity.
    + intros Hn.
      destruct (Z.eqb_spec n 1); [lia|]. destruct (Z.eqb_spec n 2); [lia|].
      destruct (Z.eqb_spec n 3); [lia|]. destruct (Z.eqb_spec n 4); [lia|].
      destruct (Z.eqb_spec n 5); [lia|]. reflexivity.
  - intros d. rewrite Manager__init__eq, Hs. reflexivity.
  - intros n. rewrite Executive__init__eq, Hs.
    unfold Role_members. cbn [find Role_value py_str]. split.
    + intros Hn.
      assert (n = 1 \/ n = 2 \/ n = 3) as [->|[->| ->]] by lia;
        eexists; (split; [|reflexivity]); reflexivity.
    + intros Hn.
      destruct (Z.eqb_spec n 1); [lia|]. destruct (Z.eqb_spec n 2); [lia|].
      destruct (Z.eqb_spec n 3); [lia|]. reflexivity.
  - intros r. rewrite Executive__init__eq, Hs. reflexivity.
Qed.

Lemma enum_argument_by_raw_code_witness :
  Manager__init__ "Bob" "bob@acme-machining.com" 75000.5 (PyDepartment HR) 0
  = (Raise (InvalidDepartmentException "Department.HR is not a valid department."), 1)
  /\ exists d,
       Department_value d = 3
       /\ Manager__init__ "Bob" "bob@acme-machining.com" 75000.5 (PyInt 3) 0
          = (Ok (Manager (mkSalaried
                            (mkEmployee 0 "Bob" "bob@acme-machining.com" IMAGE_PLACEHOLDER)
                            75000.5) d), 1).
Proof.
  destruct (enum_argument_by_raw_code "Bob" "bob@acme-machining.com" 75000.5 0 1
              (mkSalaried (mkEmployee 0 "Bob" "bob@acme-machining.com" IMAGE_PLACEHOLDER)
                 75000.5) eq_refl) as [Hint [Hmember _]].
  split; [exact (Hmember HR)|].
  apply (proj1 (Hint 3)). lia.
Defined.

(* ================================================================= *)
(** ** Lemmas on [load_file]

    Two properties of the steps of [load_row] compose along [bind]:
    a step [keeps] the list [_data]; a step is [stable] when it does
    the same on a rebased frame. *)

Lemma keeps_lift {A : Type} (r : result A) : keeps (lift r : M frame A).
Proof. intros f. reflexivity. Qed.

Lemma keeps_ret {A : Type} (a : A) : keeps (ret a : M frame A).
Proof. intros f. reflexivity. Qed.

Lemma keeps_assign_new (init : M Z instance) : keeps (assign_new init).
Proof.
  intros f. unfold assign_new.
  destruct (init (Employee_id_number (globals f))) as [[e|x] n]; reflexivity.
Qed.

Lemma keeps_bind {A B : Type} (m : M frame A) (k : A -> M frame B) :
  keeps m -> (forall a, keeps (k a)) -> keeps (bind m k).
Proof.
  intros Hm Hk f. unfold bind. specialize (Hm f).
  destruct (m f) as [[a|x] f']; simpl in Hm |- *; [|exact Hm].
  now rewrite Hk.
Qed.

Lemma keeps_if {A : Type} (b : bool) (m1 m2 : M frame A) :
  keeps m1 -> keeps m2 -> keeps (if b then m1 else m2).
Proof. destruct b; auto. Qed.

Lemma adds_one_bind {A : Type} (m : M frame A) (k : A -> M frame unit) :
  keeps m -> (forall a, adds_one (k a)) -> adds_one (bind m k).
Proof.
  intros Hm Hk f. unfold bind. specialize (Hm f).
  destruct (m f) as [[a|x] f']; simpl in Hm; [|exact Hm].
  specialize (Hk a f'). destruct (k a f') as [[u|x] f'']; now rewrite <- Hm.
Qed.

Lemma adds_one_commit : adds_one (bind read_employee append).
Proof.
  intros f. unfold bind, read_employee, append.
  destruct (employee f) as [e|]; simpl; [exists e|]; reflexivity.
Qed.

Lemma load_row_adds_one (row : list string) : adds_one (load_row row).
Proof.
  unfold load_row.
  repeat first
    [ exact adds_one_commit
    | apply adds_one_bind; [|intros ?]
    | apply keeps_bind; [|intros ?]
    | apply keeps_if
    | apply keeps_lift
    | apply keeps_ret
    | apply keeps_assign_new ].
Qed.

Lemma load_rows_adds (rows : list (list string)) (f : frame) :
  match load_rows rows f with
  | (Ok _, f') =>
      exists news, _data (globals f') = _data (globals f) ++ news
                   /\ List.length news = List.length rows
  | (Raise _, f') =>
      exists news, _data (globals f') = _data (globals f) ++ news
                   /\ (List.length news < List.length rows)%nat
  end.
Proof.
  revert f. induction rows as [|row rows IH]; intros f.
  - exists []. split; [now rewrite app_nil_r | reflexivity].
  - unfold load_rows. cbn [for_each]. unfold bind.
    pose proof (load_row_adds_one row f) as Hrow.
    destruct (load_row row f) as [[u|x] f1].
    + destruct Hrow as [e He]. specialize (IH f1). unfold load_rows in IH.
      destruct (for_each rows load_row f1) as [[u'|x] f2];
        destruct IH as [news [Hd Hl]];
        exists (e :: news); rewrite Hd, He, <- app_assoc; simpl;
        (split; [reflexivity | lia]).
    + exists []. split; [now rewrite app_nil_r | simpl; lia].
Qed.

Section Rebase.

Variable k : Z.
Variable d : list instance.













End Rebase.



Lemma load_file_rows (content : string) (w w' : world) :
  load_file content w = (Ok tt, w') ->
  exists news,
    _data w' = _data w ++ news
    /\ List.length news = List.length (fst (Csv.rows (Csv.readlines content))).
Proof.
  unfold load_file, load_lines. intros H.
  destruct (Csv.rows (Csv.readlines content)) as [rows err]. unfold bind in H.
  pose proof (load_rows_adds rows (mkFrame None w)) as Hrows.
  destruct (load_rows rows (mkFrame None w)) as [[u|x] f]; [|discriminate].
  destruct err as [x|]; [discriminate|].
  unfold ret in H. inversion H; subst w'. exact Hrows.
Qed.

(* ================================================================= *)
(** ** A load that fails (C3) *)

(** C3, as the code has it: when the rows before some row load and
    that row raises, [load_file] raises the same exception there, the
    rows after it are not read, and the roster is the roster before the
    load followed by one record for each row before the failing one:
    nothing is undone. *)
Theorem load_keeps_rows_before_failure
  (content : string) (w : world) (before after : list (list string))
  (bad : list string) (err : option exn) (f1 f2 : frame) (x : exn) :
  Csv.rows (Csv.readlines content) = (before ++ bad :: after, err) ->
  load_rows before (mkFrame None w) = (Ok tt, f1) ->
  load_row bad f1 = (Raise x, f2) ->
  load_file content w = (Raise x, globals f2)
  /\ _data (globals f2) = _data (globals f1)
  /\ exists news,
       _data (globals f1) = _data w ++ news
       /\ List.length news = List.length before.
Proof.
  intros Hrows Hbefore Hbad. split; [|split].
  - unfold load_file, load_lines. rewrite Hrows. unfold bind, load_rows.
    rewrite for_each_app. fold (load_rows before). rewrite Hbefore.
    cbn [for_each]. unfold bind. rewrite Hbad. reflexivity.
  - pose proof (load_row_adds_one bad f1) as H. rewrite Hbad in H. exact H.
  - pose proof (load_rows_adds before (mkFrame None w)) as H.
    rewrite Hbefore in H. exact H.
Qed.

Lemma load_keeps_rows_before_failure_witness :
  load_file two_lines_second_short (mkWorld 0 [])
  = (Raise (IndexError "list index out of range"),
     mkWorld 1 [Permanent
                  (mkHourly (mkEmployee 0 "Cara" "cara@acme-machining.com" IMAGE_PLACEHOLDER)
                     20.5) "2020-01-15"]).
Proof.
  exact (proj1 (load_keeps_rows_before_failure two_lines_second_short (mkWorld 0 [])
                  [["Permanent"; "Cara"; "cara@acme-machining.com"; "x.png"; "20.5";
                    "2020-01-15"]]
                  [] ["Permanent"; "Al"] None
                  (mkFrame
                     (Some (Permanent
                              (mkHourly (mkEmployee 0 "Cara" "cara@acme-machining.com"
                                           IMAGE_PLACEHOLDER) 20.5) "2020-01-15"))
                     (mkWorld 1 [Permanent
                                   (mkHourly (mkEmployee 0 "Cara" "cara@acme-machining.com"
                                                IMAGE_PLACEHOLDER) 20.5) "2020-01-15"]))
                  _ (IndexError "list index out of range")
                  ltac:(vm_compute; reflexivity) ltac:(vm_compute; reflexivity)
                  ltac:(vm_compute; reflexivity))).
Defined.

(** C3 as stated fails: the second line of the file has two fields, the
    load raises, and the roster, empty before, now holds the record of
    the first line (and the counter has moved). *)
Lemma failed_load_leaves_first_record :
  is_ok (fst (load_file two_lines_second_short (mkWorld 0 []))) = false
  /\ List.length (_data (snd (load_file two_lines_second_short (mkWorld 0 [])))) = 1%nat
  /\ map (fun e => _name (base e))
       (_data (snd (load_file two_lines_second_short (mkWorld 0 [])))) = ["Cara"]
  /\ snd (load_file two_lines_second_short (mkWorld 0 [])) <> mkWorld 0 [].
Proof. vm_compute. repeat split. discriminate. Qed.

(* ================================================================= *)
(** ** One row of the file *)


(** Fields after the sixth are never read. *)
Lemma load_row_ignores_extra_fields
  (tag name email image amount last : string) (more : list string) (f : frame) :
  load_row (tag :: name :: email :: image :: amount :: last :: more) f
  = load_row [tag; name; email; image; amount; last] f.
Proof. reflexivity. Qed.

Lemma known_tag_cases (tag : string) (rest : list string) :
  known_tag (tag :: rest) = true ->
  tag = "Executive" \/ tag = "Manager" \/ tag = "Temp" \/ tag = "Permanent".
Proof.
  unfold known_tag. intros H.
  repeat (apply orb_true_iff in H as [H|H]); apply String.eqb_eq in H; auto.
Qed.

(** A recognised tag with four or five fields raises [IndexError]
    (with five, after the pay field has been read as a float). *)
Lemma load_row_recognised_tag_short
  (tag name email image : string) (f : frame) :
  tag = "Executive" \/ tag = "Manager" \/ tag = "Temp" \/ tag = "Permanent" ->
  load_row [tag; name; email; image] f
  = (Raise (IndexError "list index out of range"), f)
  /\ forall amount y,
       Num.float_of_str amount = Ok y ->
       load_row [tag; name; email; image; amount] f
       = (Raise (IndexError "list index out of range"), f).
Proof.
  intros [-> | [-> | [-> | ->]]]; (split; [reflexivity|]); intros amount y Hy;
    unfold load_row, item; run;
    cbn [nth_error String.eqb Ascii.eqb Bool.eqb]; rewrite Hy; reflexivity.
Qed.

(** A row of six fields or more under one of the four tags: the pay
    field is read, the call is made up, the constructor runs, and the
    record is bound and added. *)
Lemma load_row_known (tag name email image amount last : string) (more : list string)
  (f : frame) :
  known_tag [tag] = true ->
  load_row (tag :: name :: email :: image :: amount :: last :: more) f =
  match Num.float_of_str amount with
  | Raise x => (Raise x, f)
  | Ok y =>
      match call_of_row tag name email y last with
      | Raise x => (Raise x, f)
      | Ok a =>
          match construct a (Employee_id_number (globals f)) with
          | (Ok e, n) => (Ok tt, mkFrame (Some e) (mkWorld n (_data (globals f) ++ [e])))
          | (Raise x, n) => (Raise x, mkFrame (employee f) (mkWorld n (_data (globals f))))
          end
      end
  end.
Proof.
  unfold known_tag. intros H.
  assert (Htag : tag = "Executive" \/ tag = "Manager" \/ tag = "Temp" \/ tag = "Permanent").
  { repeat (apply orb_true_iff in H as [H|H]);
      apply String.eqb_eq in H; auto. }
  destruct f as [emp [c d]].
  destruct Htag as [-> | [-> | [-> | ->]]];
    unfold load_row, item, call_of_row; run;
    cbn [nth_error String.eqb Ascii.eqb Bool.eqb];
    (destruct (Num.float_of_str amount) as [y|x]; [|reflexivity]);
    try (destruct (Num.int last) as [n|x]; [|reflexivity]);
    unfold assign_new, read_employee, append;
    cbn [globals employee Employee_id_number _data construct];
    match goal with
    | |- context [?init name email y ?z c] =>
        destruct (init name email y z c) as [[e|x2] n2]; reflexivity
    end.
Qed.

(** A row that lacks a field [load_row] reads: the exception, and the
    frame as it was. *)
Lemma load_row_lacks_field (row : list string) (f : frame) :
  (List.length row < 6)%nat ->
  known_tag row = true \/ (List.length row < 4)%nat ->
  load_row row f
  = (match row with
     | [_; _; _; _; amount] =>
         match Num.float_of_str amount with
         | Ok _ => Raise (IndexError "list index out of range")
         | Raise x => Raise x
         end
     | _ => Raise (IndexError "list index out of range")
     end, f).
Proof.
  intros Hlen Htag.
  destruct row as [|tag [|name [|email [|image [|amount [|last more]]]]]];
    try reflexivity; [| |simpl in Hlen; lia].
  - destruct Htag as [Htag | Hl]; [|simpl in Hl; lia].
    exact (proj1 (load_row_recognised_tag_short tag name email image f
                    (known_tag_cases _ _ Htag))).
  - destruct Htag as [Htag | Hl]; [|simpl in Hl; lia].
    pose proof (known_tag_cases _ _ Htag) as Hcases.
    destruct (Num.float_of_str amount) as [y|x] eqn:Hy.
    + exact (proj2 (load_row_recognised_tag_short tag name email image f Hcases)
               amount y Hy).
    + destruct Hcases as [-> | [-> | [-> | ->]]];
        unfold load_row, item; run;
        cbn [nth_error String.eqb Ascii.eqb Bool.eqb]; rewrite Hy; reflexivity.
Qed.




(* ================================================================= *)
(** ** A load that succeeds (C10) *)



(* ================================================================= *)
(** ** Lemmas on the reader and on plain text *)

Lemma append_assoc (a b c : string) : ((a ++ b) ++ c = a ++ (b ++ c))%string.
Proof. induction a as [|x a IH]; simpl; [reflexivity | now rewrite IH]. Qed.

Lemma append_nil_r (a : string) : (a ++ "" = a)%string.
Proof. induction a as [|x a IH]; simpl; [reflexivity | now rewrite IH]. Qed.

Lemma list_ascii_app (a b : string) :
  list_ascii_of_string (a ++ b) = list_ascii_of_string a ++ list_ascii_of_string b.
Proof. induction a as [|x a IH]; simpl; [reflexivity | now rewrite IH]. Qed.

Lemma length_append (a b : string) :
  String.length (a ++ b) = (String.length a + String.length b)%nat.
Proof. induction a as [|x a IH]; simpl; [reflexivity | now rewrite IH]. Qed.

Lemma plain_app (a b : string) : plain (a ++ b) = plain a && plain b.
Proof. unfold plain. now rewrite list_ascii_app, forallb_app. Qed.

Lemma plain_char_inv (c : ascii) :
  plain_char c = true ->
  Ascii.eqb c "," = false /\ Ascii.eqb c Csv.QUOTE = false /\ Csv.is_newline c = false.
Proof.
  unfold plain_char. intros H. apply negb_true_iff in H.
  apply orb_false_iff in H as [H1 H3]. apply orb_false_iff in H1 as [H1 H2]. auto.
Qed.

Lemma feed_app (r : Csv.reader) (l1 l2 : list ascii) :
  Csv.feed r (l1 ++ l2) =
  match Csv.feed r l1 with
  | Ok r' => Csv.feed r' l2
  | Raise e => Raise e
  end.
Proof.
  revert r. induction l1 as [|c l1 IH]; intros r; simpl; [reflexivity|].
  destruct (Csv.process_char r (Some c)); [apply IH | reflexivity].
Qed.

(** A plain character goes into the field being read, unless the field
    is full. *)
Lemma process_plain_char (s : Csv.state) (fs : list string) (b : string) (c : ascii) :
  plain_char c = true ->
  s = Csv.START_RECORD \/ s = Csv.START_FIELD \/ s = Csv.IN_FIELD ->
  Csv.process_char (Csv.mkReader s fs b) (Some c)
  = if Csv.field_size_limit <=? Z.of_nat (String.length b)
    then Raise (csv_Error "field larger than field limit (131072)")
    else Ok (Csv.mkReader Csv.IN_FIELD fs (b ++ String c "")).
Proof.
  intros Hc Hs. destruct (plain_char_inv c Hc) as [H1 [H2 H3]].
  unfold Csv.process_char, Csv.at_line_end, Csv.is_char, Csv.add_char.
  cbn [Csv.st Csv.fields Csv.field].
  destruct Hs as [-> | [-> | ->]]; now rewrite ?H1, ?H2, ?H3.
Qed.

(** Plain text goes into the field being read as long as the field
    stays within the limit; the character that would pass it raises. *)
Lemma feed_plain (s : string) (fs : list string) (b : string) :
  plain s = true ->
  fits b = true ->
  Csv.feed (Csv.mkReader Csv.IN_FIELD fs b) (list_ascii_of_string s)
  = if fits (b ++ s) then Ok (Csv.mkReader Csv.IN_FIELD fs (b ++ s))
    else Raise (csv_Error "field larger than field limit (131072)").
Proof.
  revert b. induction s as [|c s IH]; intros b Hs Hb.
  - simpl. now rewrite append_nil_r, Hb.
  - unfold plain in Hs. simpl in Hs. apply andb_true_iff in Hs as [Hc Hs].
    cbn [list_ascii_of_string Csv.feed].
    rewrite process_plain_char by auto.
    unfold fits in *. apply Z.leb_le in Hb.
    destruct (Z.leb_spec Csv.field_size_limit (Z.of_nat (String.length b))) as [Hfull|Hroom].
    + rewrite length_append. cbn [String.length].
      destruct (Z.leb_spec (Z.of_nat (String.length b + S (String.length s)))
                  Csv.field_size_limit); [lia | reflexivity].
    + rewrite IH; [now rewrite append_assoc | exact Hs |].
      apply Z.leb_le. rewrite length_append. cbn [String.length]. lia.
Qed.

Lemma fits_one (c : ascii) : fits (String c "") = true.
Proof. reflexivity. Qed.

(** A plain field and the comma after it: one more field. *)
Lemma feed_field_comma (s : string) (st0 : Csv.state) (fs : list string) (rest : list ascii) :
  plain s = true ->
  st0 = Csv.START_FIELD \/ (st0 = Csv.START_RECORD /\ s <> "") ->
  Csv.feed (Csv.mkReader st0 fs "") (list_ascii_of_string s ++ ","%char :: rest)%list
  = if fits s then Csv.feed (Csv.mkReader Csv.START_FIELD (fs ++ [s]) "") rest
    else Raise (csv_Error "field larger than field limit (131072)").
Proof.
  intros Hs Hst. destruct s as [|c s].
  - destruct Hst as [-> | [_ H]]; [reflexivity | now elim H].
  - unfold plain in Hs. simpl in Hs. apply andb_true_iff in Hs as [Hc Hs].
    cbn [list_ascii_of_string app Csv.feed].
    rewrite process_plain_char by (destruct Hst as [-> | [-> _]]; auto).
    change (Csv.field_size_limit <=? Z.of_nat (String.length "")) with false.
    cbv iota. rewrite feed_app, feed_plain by (exact Hs || apply fits_one).
    change ("" ++ String c "")%string with (String c "").
    change (String c "" ++ s)%string with (String c s).
    destruct (fits (String c s)); reflexivity.
Qed.

(** The last plain field and the line feed. *)
Lemma feed_field_newline (s : string) (fs : list string) :
  plain s = true ->
  Csv.feed (Csv.mkReader Csv.START_FIELD fs "") (list_ascii_of_string s ++ [Csv.LF])%list
  = if fits s then Ok (Csv.mkReader Csv.EAT_CRNL (fs ++ [s]) "")
    else Raise (csv_Error "field larger than field limit (131072)").
Proof.
  intros Hs. destruct s as [|c s].
  - reflexivity.
  - unfold plain in Hs. simpl in Hs. apply andb_true_iff in Hs as [Hc Hs].
    cbn [list_ascii_of_string app Csv.feed].
    rewrite process_plain_char by auto.
    change (Csv.field_size_limit <=? Z.of_nat (String.length "")) with false.
    cbv iota. rewrite feed_app, feed_plain by (exact Hs || apply fits_one).
    change ("" ++ String c "")%string with (String c "").
    change (String c "" ++ s)%string with (String c s).
    destruct (fits (String c s)); reflexivity.
Qed.

(** The reader on a line of six plain fields, from the start of a row:
    the six fields when each is within the limit. *)
Lemma feed_plain_line (f0 f1 f2 f3 f4 f5 : string) :
  f0 <> "" ->
  plain f0 = true -> plain f1 = true -> plain f2 = true ->
  plain f3 = true -> plain f4 = true -> plain f5 = true ->
  Csv.feed_line Csv.reset
    (f0 ++ "," ++ f1 ++ "," ++ f2 ++ "," ++ f3 ++ "," ++ f4 ++ "," ++ f5
     ++ String Csv.LF "")%string
  = if forallb fits [f0; f1; f2; f3; f4; f5]
    then Ok (Csv.mkReader Csv.START_RECORD [f0; f1; f2; f3; f4; f5] "")
    else Raise (csv_Error "field larger than field limit (131072)").
Proof.
  intros H0 P0 P1 P2 P3 P4 P5.
  unfold Csv.feed_line, Csv.reset.
  repeat (rewrite list_ascii_app; cbn [list_ascii_of_string app]).
  cbn [forallb].
  rewrite feed_field_comma by auto. destruct (fits f0); [|reflexivity].
  rewrite feed_field_comma by auto. destruct (fits f1); [|reflexivity].
  rewrite feed_field_comma by auto. destruct (fits f2); [|reflexivity].
  rewrite feed_field_comma by auto. destruct (fits f3); [|reflexivity].
  rewrite feed_field_comma by auto. destruct (fits f4); [|reflexivity].
  rewrite feed_field_newline by exact P5. destruct (fits f5); reflexivity.
Qed.

(** Six plain fields on a line are six fields of one row, unless one
    of them is beyond the limit, which ends the reading. *)
Lemma rows_of_plain_line (f0 f1 f2 f3 f4 f5 : string) :
  f0 <> "" ->
  plain f0 = true -> plain f1 = true -> plain f2 = true ->
  plain f3 = true -> plain f4 = true -> plain f5 = true ->
  Csv.rows [(f0 ++ "," ++ f1 ++ "," ++ f2 ++ "," ++ f3 ++ "," ++ f4 ++ "," ++ f5
             ++ String Csv.LF "")%string]
  = if forallb fits [f0; f1; f2; f3; f4; f5]
    then ([[f0; f1; f2; f3; f4; f5]], None)
    else ([], Some (csv_Error "field larger than field limit (131072)")).
Proof.
  intros H0 P0 P1 P2 P3 P4 P5.
  unfold Csv.rows. cbn [Csv.rows_from].
  rewrite feed_plain_line by assumption.
  destruct (forallb fits [f0; f1; f2; f3; f4; f5]); reflexivity.
Qed.
Lemma plain_digits (ds : list nat) : plain (Num.text ds) = true.
Proof.
  unfold plain, Num.text. rewrite list_ascii_of_string_of_list_ascii.
  induction ds as [|n ds IH]; [reflexivity|]. cbn [map forallb]. rewrite IH, andb_true_r.
  do 10 (destruct n as [|n]; [reflexivity|]). reflexivity.
Qed.

Lemma plain_layout (ds : list nat) (point : Z) : plain (Num.layout ds point) = true.
Proof.
  unfold Num.layout.
  destruct ((point <=? -4) || (16 <? point)).
  - rewrite !plain_app, plain_digits.
    destruct (skipn 1 ds); [|rewrite plain_app, plain_digits];
      destruct (point - 1 <? 0); rewrite plain_digits; reflexivity.
  - destruct (point <=? 0); [|destruct (Z.of_nat (List.length ds) <=? point)];
      rewrite ?plain_app, ?plain_digits; reflexivity.
Qed.

(** The text of a float holds no comma, quote or line end. *)
Lemma plain_repr (x : float) : plain (Num.repr x) = true.
Proof.
  unfold Num.repr. destruct (Prim2SF x) as [[|]|[|]| |s m e]; try reflexivity.
  destruct (Num.shortest (abs x) (Z.pos m) e) as [ds point].
  rewrite plain_app, plain_layout. destruct s; reflexivity.
Qed.

Lemma plain_type_name (e : instance) : plain (type_name e) = true /\ type_name e <> "".
Proof. destruct e; split; (reflexivity || discriminate). Qed.

(* ================================================================= *)
(** ** The line of a record (C8) *)

Lemma save_line_fields (e : instance) :
  save_line e
  = (type_name e ++ "," ++ _name (base e) ++ "," ++ (" " ++ _email (base e)) ++ ","
     ++ (" " ++ _image (base e)) ++ "," ++ (amount_gap e ++ amount_text e) ++ ","
     ++ (class_gap e ++ class_text e) ++ String Csv.LF "")%string.
Proof.
  destruct e as [[b y] r | [b y] d | [b w] day | [b w] day];
    unfold save_line, __repr__, Salaried__repr__, Hourly__repr__, Employee__repr__;
    cbn [type_name base salaried_base hourly_base _yearly _hourly_wage amount_gap
           amount_text class_gap class_text isinstance_Salaried];
    rewrite !append_assoc; reflexivity.
Qed.

Lemma plain_amount (e : instance) : plain (amount_gap e ++ amount_text e) = true.
Proof.
  rewrite plain_app.
  destruct e; cbn [amount_gap amount_text isinstance_Salaried];
    rewrite plain_repr; reflexivity.
Qed.

Lemma save_line_rows (e : instance) :
  plain (_name (base e)) = true ->
  plain (_email (base e)) = true ->
  plain (_image (base e)) = true ->
  plain (class_text e) = true ->
  Csv.rows [save_line e]
  = if fields_fit e then ([saved_fields e], None)
    else ([], Some (csv_Error "field larger than field limit (131072)")).
Proof.
  intros Pn Pe Pi Pc. rewrite save_line_fields.
  destruct (plain_type_name e) as [Pt Ht].
  apply rows_of_plain_line; try assumption.
  - apply plain_amount.
  - rewrite plain_app, Pc. destruct e; reflexivity.
Qed.

(** C8, as the code has it: the line of a record is its class name,
    name, email, image, pay field and class field in that order, joined
    by commas (with a space after the comma before the email, the
    image, a yearly amount and a last day) and ended by a line feed,
    written by plain concatenation; when the name, email, image and
    class field hold no comma, quote or line end and no field of the
    line is longer than the limit of the reader, the reader takes that
    line as one row of exactly those six fields. *)
Theorem save_line_layout (e : instance) :
  save_line e
  = (type_name e ++ "," ++ _name (base e) ++ ", " ++ _email (base e) ++ ", "
     ++ _image (base e) ++ "," ++ amount_gap e ++ amount_text e ++ ","
     ++ class_gap e ++ class_text e ++ String Csv.LF "")%string
  /\ (plain (_name (base e)) = true ->
      plain (_email (base e)) = true ->
      plain (_image (base e)) = true ->
      plain (class_text e) = true ->
      forallb fits
        [type_name e; _name (base e); (" " ++ _email (base e))%string;
         (" " ++ _image (base e))%string; (amount_gap e ++ amount_text e)%string;
         (class_gap e ++ class_text e)%string] = true ->
      Csv.rows [save_line e]
      = ([[type_name e; _name (base e); (" " ++ _email (base e))%string;
           (" " ++ _image (base e))%string; (amount_gap e ++ amount_text e)%string;
           (class_gap e ++ class_text e)%string]], None)).
Proof.
  split.
  - rewrite save_line_fields. destruct e; cbn [amount_gap class_gap isinstance_Salaried];
      rewrite ?append_assoc; reflexivity.
  - intros Pn Pe Pi Pc Hfit. rewrite (save_line_rows e Pn Pe Pi Pc).
    unfold fields_fit, saved_fields. now rewrite Hfit.
Qed.

Lemma save_line_layout_witness :
  Csv.rows (map save_line (built dan 6))
  = ([["Temporary"; "Dan"; " dan@acme-machining.com"; " ./images/placeholder.png";
       "15.0"; " 2024-06-30"]], None).
Proof.
  exact (proj2 (save_line_layout
                  (Temporary
                     (mkHourly (mkEmployee 6 "Dan" "dan@acme-machining.com" IMAGE_PLACEHOLDER)
                        15) "2024-06-30"))
           eq_refl eq_refl eq_refl eq_refl ltac:(vm_compute; reflexivity)).
Defined.

(** C8 as stated fails: a name that holds a comma is written as it is,
    no quote appears in the line, and the reader finds seven fields. *)
Lemma comma_in_name_is_not_quoted :
  map save_line (built jane 0)
  = [("Executive,Doe, Jane, jd@acme-machining.com, ./images/placeholder.png, 60000.0,CEO"
      ++ String Csv.LF "")%string]
  /\ Csv.rows (map save_line (built jane 0))
     = ([["Executive"; "Doe"; " Jane"; " jd@acme-machining.com";
          " ./images/placeholder.png"; " 60000.0"; "CEO"]], None)
  /\ forallb (fun line => forallb (fun c => negb (Ascii.eqb c Csv.QUOTE))
                            (list_ascii_of_string line))
       (map save_line (built jane 0)) = true.
Proof. vm_compute. repeat split. Qed.

(* ================================================================= *)
(** ** Unrecognised tags (C4) *)

(** C4, what the code does instead: on a row of four fields or more
    whose tag is none of the four that [load_row] tests, no branch
    binds [employee], so the record of the row before is added again,
    and when there is none the read of the unbound local raises
    [UnboundLocalError]. *)
Theorem load_row_unrecognised_tag
  (tag name email image : string) (more : list string) (f : frame) :
  tag <> "Executive" -> tag <> "Manager" -> tag <> "Temp" -> tag <> "Permanent" ->
  load_row (tag :: name :: email :: image :: more) f =
  match employee f with
  | Some e =>
      (Ok tt,
       mkFrame (Some e)
         (mkWorld (Employee_id_number (globals f)) (_data (globals f) ++ [e])))
  | None => (Raise (UnboundLocalError "employee"), f)
  end.
Proof.
  intros H1 H2 H3 H4. unfold load_row.
  apply String.eqb_neq in H1, H2, H3, H4.
  unfold item. cbn [nth_error]. run. rewrite H1, H2, H3, H4.
  unfold read_employee, append. destruct f as [[e|] w]; reflexivity.
Qed.

(** The line [save_file] writes for a Temporary record, read back by
    [load_file] in a new run: the tag [Temporary] is not the [Temp]
    that [load_file] tests. *)
Lemma load_row_unrecognised_tag_witness :
  Csv.rows (map save_line (built dan 0))
  = ([["Temporary"; "Dan"; " dan@acme-machining.com"; " ./images/placeholder.png";
       "15.0"; " 2024-06-30"]], None)
  /\ load_row ["Temporary"; "Dan"; " dan@acme-machining.com"; " ./images/placeholder.png";
               "15.0"; " 2024-06-30"] (mkFrame None (mkWorld 0 []))
     = (Raise (UnboundLocalError "employee"), mkFrame None (mkWorld 0 [])).
Proof.
  split; [vm_compute; reflexivity|].
  apply (load_row_unrecognised_tag "Temporary" "Dan" " dan@acme-machining.com"
           " ./images/placeholder.png" ["15.0"; " 2024-06-30"] (mkFrame None (mkWorld 0 [])));
    discriminate.
Defined.

(** The same at the level of files: a first line with an unknown tag
    stops the load on the unbound local; after a good line, a line with
    an unknown tag adds the record of the good line a second time, under
    the same identity; a row with a seventh field is taken as if it had
    six; a row with too few fields raises [IndexError]. *)
Lemma load_file_malformed_rows :
  load_file (save_file (mkWorld 1 (built dan 0))) (mkWorld 0 [])
  = (Raise (UnboundLocalError "employee"), mkWorld 0 [])
  /\ load_file unknown_tag_after_good_line (mkWorld 0 [])
     = (Ok tt, mkWorld 1 (built cara 0 ++ built cara 0))
  /\ load_file seven_fields (mkWorld 0 []) = (Ok tt, mkWorld 1 (built bob 0))
  /\ load_file two_lines_second_short (mkWorld 0 [])
     = (Raise (IndexError "list index out of range"), mkWorld 1 (built cara 0)).
Proof. vm_compute. repeat split. Qed.

(* ================================================================= *)
(** ** Every saved line, read back *)

Lemma plain_one_line (s : string) : plain s = true -> one_line s = true.
Proof.
  unfold plain, one_line. induction (list_ascii_of_string s) as [|c l IH]; [reflexivity|].
  cbn [forallb]. intros H. apply andb_true_iff in H as [Hc Hl].
  destruct (plain_char_inv c Hc) as [_ [_ Hn]]. now rewrite Hn, IH.
Qed.

Lemma one_line_app (a b : string) : one_line (a ++ b) = one_line a && one_line b.
Proof. unfold one_line. now rewrite list_ascii_app, forallb_app. Qed.

Lemma translate_one_line (l : list ascii) :
  forallb (fun c => negb (Csv.is_newline c)) l = true ->
  Csv.translate (l ++ [Csv.LF]) = l ++ [Csv.LF].
Proof.
  induction l as [|c l IH]; [reflexivity|].
  cbn [forallb app Csv.translate]. intros H. apply andb_true_iff in H as [Hc Hl].
  unfold Csv.is_newline in Hc. apply negb_true_iff, orb_false_iff in Hc as [_ Hcr].
  now rewrite Hcr, IH.
Qed.

Lemma split_one_line (l : list ascii) (line : string) :
  forallb (fun c => negb (Csv.is_newline c)) l = true ->
  Csv.split_lines line (l ++ [Csv.LF])
  = [(line ++ string_of_list_ascii l ++ String Csv.LF "")%string].
Proof.
  revert line. induction l as [|c l IH]; intros line H.
  - reflexivity.
  - cbn [forallb] in H. apply andb_true_iff in H as [Hc Hl].
    unfold Csv.is_newline in Hc. apply negb_true_iff, orb_false_iff in Hc as [Hlf _].
    cbn [app Csv.split_lines]. rewrite Hlf, IH by exact Hl.
    cbn [string_of_list_ascii]. now rewrite append_assoc.
Qed.

Lemma readlines_one_line (body : string) :
  one_line body = true ->
  Csv.readlines (body ++ String Csv.LF "") = [(body ++ String Csv.LF "")%string].
Proof.
  intros H. unfold Csv.readlines. rewrite list_ascii_app.
  cbn [list_ascii_of_string]. rewrite translate_one_line, split_one_line by exact H.
  now rewrite string_of_list_ascii_of_string.
Qed.

Lemma readlines_save_line (e : instance) :
  plain (_name (base e)) = true ->
  plain (_email (base e)) = true ->
  plain (_image (base e)) = true ->
  plain (class_text e) = true ->
  Csv.readlines (save_line e) = [save_line e].
Proof.
  intros Pn Pe Pi Pc. rewrite save_line_fields.
  destruct (plain_type_name e) as [Pt _].
  assert (Pg : plain (class_gap e ++ class_text e) = true)
    by (rewrite plain_app, Pc; destruct e; reflexivity).
  pose proof (plain_amount e) as Pa.
  apply plain_one_line in Pn, Pe, Pi, Pt, Pg, Pa.
  set (g4 := (amount_gap e ++ amount_text e)%string) in *.
  set (g5 := (class_gap e ++ class_text e)%string) in *.
  replace (type_name e ++ "," ++ _name (base e) ++ "," ++ (" " ++ _email (base e)) ++ ","
           ++ (" " ++ _image (base e)) ++ "," ++ g4 ++ "," ++ g5 ++ String Csv.LF "")%string
    with ((type_name e ++ "," ++ _name (base e) ++ "," ++ (" " ++ _email (base e)) ++ ","
           ++ (" " ++ _image (base e)) ++ "," ++ g4 ++ "," ++ g5) ++ String Csv.LF "")%string
    by (rewrite !append_assoc; reflexivity).
  apply readlines_one_line.
  rewrite !one_line_app, Pt, Pn, Pa, Pg.
  change (one_line (" " ++ _email (base e))) with (one_line (_email (base e))).
  change (one_line (" " ++ _image (base e))) with (one_line (_image (base e))).
  now rewrite Pe, Pi.
Qed.

(** A line of [save_file], loaded alone: the body of the loop on its
    six fields, or the error of the reader on a field beyond its
    limit. *)
Lemma load_file_save_line (e : instance) (w : world) :
  plain (_name (base e)) = true ->
  plain (_email (base e)) = true ->
  plain (_image (base e)) = true ->
  plain (class_text e) = true ->
  load_file (save_line e) w =
  if fields_fit e
  then let (r, f) := load_row (saved_fields e) (mkFrame None w) in (r, globals f)
  else (Raise (csv_Error "field larger than field limit (131072)"), w).
Proof.
  intros Pn Pe Pi Pc. unfold load_file, load_lines.
  rewrite readlines_save_line, save_line_rows by assumption.
  destruct (fields_fit e); [|reflexivity].
  unfold load_rows. cbn [for_each]. run.
  destruct (load_row (saved_fields e) (mkFrame None w)) as [[[]|x] f]; reflexivity.
Qed.

Lemma float_of_str_error (s : string) :
  is_ok (Num.float_of_str s) = false -> raises_ValueError (Num.float_of_str s) = true.
Proof.
  unfold Num.float_of_str.
  destruct (Num.sign _) as [neg l].
  destruct (_ || _); [discriminate|]. destruct (String.eqb _ "nan"); [discriminate|].
  destruct (Num.digitpart l) as [ip l1].
  destruct (match l1 with [] => _ | _ => _ end) as [fp l2].
  destruct (Num.exponent l2) as [[x [|c r]]|]; destruct ip, fp; (discriminate || reflexivity).
Qed.

Lemma int_of_name :
  (forall r, raises_ValueError (Num.int (Role_name r)) = true)
  /\ (forall d, raises_ValueError (Num.int (Department_name d)) = true).
Proof. split; intros []; reflexivity. Qed.

Lemma space_in_front (s : string) : (" " ++ s)%string <> s.
Proof.
  intros H. apply (f_equal String.length) in H. simpl in H.
  induction (String.length s); [discriminate | now inversion H].
Qed.

(** What the body of the loop makes of the six fields of a saved line,
    class by class. *)
Lemma load_row_saved_Executive (s : Salaried) (r : Role) (f : frame) :
  raises_ValueError (fst (load_row (saved_fields (Executive s r)) f)) = true
  /\ snd (load_row (saved_fields (Executive s r)) f) = f.
Proof.
  unfold saved_fields, load_row, item. run.
  cbn [nth_error type_name class_text class_gap amount_gap amount_text
         isinstance_Salaried String.eqb Ascii.eqb Bool.eqb String.append].
  pose proof (float_of_str_error (String " " (Num.repr (_yearly s)))) as Hf.
  destruct (Num.float_of_str (String " " (Num.repr (_yearly s)))) as [y|x].
  - pose proof (proj1 int_of_name r) as Hi.
    destruct (Num.int (Role_name r)) as [n|x]; [discriminate|].
    split; [exact Hi | reflexivity].
  - split; [exact (Hf eq_refl) | reflexivity].
Qed.

Lemma load_row_saved_Manager (s : Salaried) (d : Department) (f : frame) :
  raises_ValueError (fst (load_row (saved_fields (Manager s d)) f)) = true
  /\ snd (load_row (saved_fields (Manager s d)) f) = f.
Proof.
  unfold saved_fields, load_row, item. run.
  cbn [nth_error type_name class_text class_gap amount_gap amount_text
         isinstance_Salaried String.eqb Ascii.eqb Bool.eqb String.append].
  pose proof (float_of_str_error (String " " (Num.repr (_yearly s)))) as Hf.
  destruct (Num.float_of_str (String " " (Num.repr (_yearly s)))) as [y|x].
  - pose proof (proj2 int_of_name d) as Hi.
    destruct (Num.int (Department_name d)) as [n|x]; [discriminate|].
    split; [exact Hi | reflexivity].
  - split; [exact (Hf eq_refl) | reflexivity].
Qed.

Lemma load_row_saved_Temporary (h : Hourly) (last_day : string) (w : world) :
  load_row (saved_fields (Temporary h last_day)) (mkFrame None w)
  = (Raise (UnboundLocalError "employee"), mkFrame None w).
Proof. reflexivity. Qed.

Lemma load_row_saved_Permanent (h : Hourly) (hired_date : string) (f f' : frame) :
  load_row (saved_fields (Permanent h hired_date)) f = (Ok tt, f') ->
  exists e',
    _data (globals f') = _data (globals f) ++ [e']
    /\ _email (base e') = (" " ++ _email (hourly_base h))%string.
Proof.
  unfold saved_fields, load_row, item. run.
  cbn [nth_error type_name class_text class_gap amount_gap amount_text
         isinstance_Salaried String.eqb Ascii.eqb Bool.eqb String.append base].
  destruct (Num.float_of_str (Num.repr (_hourly_wage h))) as [y|x]; [|discriminate].
  unfold assign_new, read_employee, append.
  rewrite Permanent__init__eq, Hourly__init__eq, Employee__init__eq.
  destruct (name_check (_name (hourly_base h))); [|discriminate].
  destruct (email_check _); [|discriminate].
  destruct ((y <? 15) || (99.99 <? y))%float; [discriminate|].
  cbn [employee globals _data Employee_id_number].
  intros H. inversion H; subst f'. cbn [globals _data].
  eexists. split; reflexivity.
Qed.

(* ================================================================= *)
(** ** Saving and loading back (C1) *)

(** C1, what the code does instead: for every record whose name,
    email, image and class field hold no comma, quote or line end, the
    line [save_file] writes does not load back.  The role and the
    department are written by name and read with [int], so an
    Executive or Manager line raises [ValueError] and adds nothing; the
    tag [Temporary] is not the [Temp] that [load_file] tests, so a
    Temporary line, loaded first, raises [UnboundLocalError]; a
    Permanent line that loads gives a record whose email has a space in
    front, the space [__repr__] writes after the comma.  A line with a
    field beyond the limit of the reader does not reach these steps:
    the reader raises and nothing is added. *)
Theorem saved_line_does_not_load_back (e : instance) (w : world) :
  plain (_name (base e)) = true ->
  plain (_email (base e)) = true ->
  plain (_image (base e)) = true ->
  plain (class_text e) = true ->
  if fields_fit e then
    match e with
    | Executive _ _ | Manager _ _ =>
        raises_ValueError (fst (load_file (save_line e) w)) = true
        /\ snd (load_file (save_line e) w) = w
    | Temporary _ _ =>
        load_file (save_line e) w = (Raise (UnboundLocalError "employee"), w)
    | Permanent _ _ =>
        forall w', load_file (save_line e) w = (Ok tt, w') ->
                   exists e',
                     _data w' = _data w ++ [e']
                     /\ _email (base e') = (" " ++ _email (base e))%string
                     /\ _email (base e') <> _email (base e)
    end
  else
    load_file (save_line e) w
    = (Raise (csv_Error "field larger than field limit (131072)"), w).
Proof.
  intros Pn Pe Pi Pc. rewrite (load_file_save_line e w Pn Pe Pi Pc).
  destruct (fields_fit e); [|reflexivity].
  destruct e as [s r | s d | h day | h day].
  - destruct (load_row_saved_Executive s r (mkFrame None w)) as [H1 H2].
    destruct (load_row _ _) as [res f]. simpl in H1, H2 |- *. now subst f.
  - destruct (load_row_saved_Manager s d (mkFrame None w)) as [H1 H2].
    destruct (load_row _ _) as [res f]. simpl in H1, H2 |- *. now subst f.
  - intros w' H.
    pose proof (load_row_saved_Permanent h day (mkFrame None w)) as Hp.
    destruct (load_row _ _) as [res f]. inversion H; subst res w'.
    destruct (Hp f eq_refl) as [e' [Hd He]]. exists e'.
    split; [exact Hd|]. split; [exact He|]. rewrite He. apply space_in_front.
  - now rewrite load_row_saved_Temporary.
Qed.

Lemma saved_line_does_not_load_back_witness :
  load_file (save_file (mkWorld 1 (built ann 0))) (mkWorld 0 [])
  = (Raise (ValueError "invalid literal for int() with base 10: 'CEO'"), mkWorld 0 [])
  /\ raises_ValueError (fst (load_file (save_file (mkWorld 1 (built ann 0))) (mkWorld 0 [])))
     = true
  /\ load_file (save_file (mkWorld 1 (built bob 0))) (mkWorld 0 [])
     = (Raise (ValueError "invalid literal for int() with base 10: 'HR'"), mkWorld 0 [])
  /\ load_file (save_file (mkWorld 1 (built dan 0))) (mkWorld 0 [])
     = (Raise (UnboundLocalError "employee"), mkWorld 0 [])
  /\ load_file (save_file (mkWorld 1 (built cara 0))) (mkWorld 0 [])
     = (Ok tt,
        mkWorld 1 [Permanent
                     (mkHourly
                        (mkEmployee 0 "Cara" " cara@acme-machining.com" IMAGE_PLACEHOLDER)
                        20.5) "2020-01-15"])
  /\ built cara 0
     = [Permanent
          (mkHourly (mkEmployee 0 "Cara" "cara@acme-machining.com" IMAGE_PLACEHOLDER) 20.5)
          "2020-01-15"].
Proof.
  split; [vm_compute; reflexivity|]. split.
  - pose proof (saved_line_does_not_load_back
                  (Executive
                     (mkSalaried
                        (mkEmployee 0 "Ann" "ann@acme-machining.com" IMAGE_PLACEHOLDER)
                        60000) CEO)
                  (mkWorld 0 []) eq_refl eq_refl eq_refl eq_refl) as H.
    change (fields_fit
              (Executive
                 (mkSalaried
                    (mkEmployee 0 "Ann" "ann@acme-machining.com" IMAGE_PLACEHOLDER) 60000)
                 CEO))
      with true in H.
    exact (proj1 H).
  - vm_compute. repeat split.
Defined.

(* ================================================================= *)
(** ** The built-ins on sample values *)

Example repr_samples :
  Num.repr 60000 = "60000.0" /\ Num.repr 99.99 = "99.99" /\ Num.repr 0.1 = "0.1"
  /\ Num.repr 1e16 = "1e+16" /\ Num.repr 1e-05 = "1e-05"
  /\ Num.repr (-2.5) = "-2.5" /\ Num.repr infinity = "inf".
Proof. vm_compute. repeat split. Qed.

Example float_samples :
  Num.float_of_str " 60000.0" = Ok 60000%float
  /\ Num.float_of_str "99.99" = Ok 99.99%float
  /\ Num.float_of_str "1_000.5e-1" = Ok 100.05%float
  /\ Num.float_of_str "-Infinity" = Ok neg_infinity
  /\ is_ok (Num.float_of_str "") = false
  /\ is_ok (Num.float_of_str "12,5") = false.
Proof. vm_compute. repeat split. Qed.

Example int_samples :
  Num.int " 3 " = Ok 3 /\ Num.int "-12" = Ok (-12) /\ Num.int "1_0" = Ok 10
  /\ is_ok (Num.int "3.0") = false /\ is_ok (Num.int "") = false.
Proof. vm_compute. repeat split. Qed.

Example separator_samples :
  is_ok (Num.float_of_str (String "028" "20")) = false
  /\ is_ok (Num.float_of_str (String "031" "20")) = false
  /\ is_ok (Num.int (String "028" "3")) = false
  /\ Num.float_of_str (String "009" (String "160" "20")) = Ok 20%float
  /\ Num.int (String "133" "3") = Ok 3.
Proof. vm_compute. repeat split. Qed.

Example rows_samples :
  Csv.rows (Csv.readlines ("a,b" ++ String Csv.CR (String Csv.LF "c,,d")))
  = ([["a"; "b"]; ["c"; ""; "d"]], None)
  /\ Csv.rows (Csv.readlines (String Csv.QUOTE ("x,y" ++ String Csv.QUOTE ",z")))
     = ([["x,y"; "z"]], None)
  /\ Csv.rows (Csv.readlines (String Csv.LF "")) = ([[]], None).
Proof. vm_compute. repeat split. Qed.

(* ================================================================= *)
(** ** Further properties: construction and setters *)

Import Forms_py Checks.

Ltac form_fields :=
  cbn [fst snd is_ok andb orb _employee visible stdout id_number _name _email _image
       _name_edit _email_edit _image_path_edit _pay_edit retarget salaried_base _yearly
       hourly_base _hourly_wage].

Ltac form_cases fm :=
  destruct (Str.is_blank (_name_edit fm));
  [|destruct (Str.is_blank (_email_edit fm));
    [|destruct (negb (Str.contains "@acme-machining.com" (_email_edit fm)));
      [|destruct (Str.is_blank (_image_path_edit fm))]]].

Lemma valid_base_built (c : Z) (name email : string) :
  name_check name = Ok tt -> email_check email = Ok tt ->
  valid_base (mkEmployee c name email IMAGE_PLACEHOLDER) = true.
Proof. intros Hn He. unfold valid_base. cbn [_name _email _image]. now rewrite Hn, He. Qed.

(** What a construction comes to, class by class. *)
Lemma construct_outcome (a : call) (c : Z) :
  is_ok (fst (construct a c)) = accepted a
  /\ forall e,
       fst (construct a c) = Ok e ->
       valid e = true
       /\ base e = mkEmployee c (call_name a) (call_email a) IMAGE_PLACEHOLDER
       /\ match a, e with
          | NewExecutive _ _ y code, Executive s r =>
              _yearly s = y /\ code = PyInt (Role_value r)
          | NewManager _ _ y code, Manager s d =>
              _yearly s = y /\ code = PyInt (Department_value d)
          | NewPermanent _ _ w day, Permanent h day' => _hourly_wage h = w /\ day' = day
          | NewTemporary _ _ w day, Temporary h day' => _hourly_wage h = w /\ day' = day
          | _, _ => False
          end.
Proof.
  destruct a as [name email y role | name email y dep | name email w day | name email w day];
    unfold accepted; cbn [construct call_name call_email];
    rewrite ?Executive__init__eq, ?Manager__init__eq, ?Permanent__init__eq,
      ?Temporary__init__eq, ?Salaried__init__eq, ?Hourly__init__eq, Employee__init__eq;
    destruct (name_check name) as [[]|xn] eqn:Hn; try (split; [reflexivity | discriminate]);
    destruct (email_check email) as [[]|xe] eqn:He; try (split; [reflexivity | discriminate]);
    cbn [is_ok andb].
  - unfold yearly_check. destruct (y <? 50000)%float eqn:Hy;
      [split; [reflexivity | discriminate]|].
    destruct role as [n|r|d]; try (split; [reflexivity | discriminate]).
    unfold py_in, Role_members. cbn [map existsb find py_eq Role_value is_ok andb].
    destruct (Z.eqb_spec n 1) as [->|_];
      [|destruct (Z.eqb_spec n 2) as [->|_]; [|destruct (Z.eqb_spec n 3) as [->|_]]];
      (split; [reflexivity|]); try discriminate;
      intros e H; inversion H; subst e; unfold valid;
      cbn [base salaried_base _yearly]; unfold yearly_check;
      rewrite valid_base_built, Hy by assumption; repeat split.
  - unfold yearly_check. destruct (y <? 50000)%float eqn:Hy;
      [split; [reflexivity | discriminate]|].
    destruct dep as [n|r|d]; try (split; [reflexivity | discriminate]).
    unfold py_in, Department_members. cbn [map existsb find py_eq Department_value is_ok andb].
    destruct (Z.eqb_spec n 1) as [->|_];
      [|destruct (Z.eqb_spec n 2) as [->|_];
        [|destruct (Z.eqb_spec n 3) as [->|_];
          [|destruct (Z.eqb_spec n 4) as [->|_]; [|destruct (Z.eqb_spec n 5) as [->|_]]]]];
      (split; [reflexivity|]); try discriminate;
      intros e H; inversion H; subst e; unfold valid;
      cbn [base salaried_base _yearly]; unfold yearly_check;
      rewrite valid_base_built, Hy by assumption; repeat split.
  - unfold hourly_wage_check. destruct ((w <? 15) || (99.99 <? w))%float eqn:Hw;
      (split; [reflexivity|]); try discriminate.
    intros e H; inversion H; subst e; unfold valid;
      cbn [base hourly_base _hourly_wage]; unfold hourly_wage_check;
      rewrite valid_base_built, Hw by assumption; repeat split.
  - unfold hourly_wage_check. destruct ((w <? 15) || (99.99 <? w))%float eqn:Hw;
      (split; [reflexivity|]); try discriminate.
    intros e H; inversion H; subst e; unfold valid;
      cbn [base hourly_base _hourly_wage]; unfold hourly_wage_check;
      rewrite valid_base_built, Hw by assumption; repeat split.
Qed.

(** X1: a construction succeeds exactly when the name, the email, the
    pay field and (for an Executive or a Manager) the code pass their
    tests; the record it returns is of the class called, holds the
    arguments as given and the placeholder image, is numbered with the
    value the counter had, and is valid. *)
Theorem construct_accepted (a : call) (c : Z) :
  is_ok (fst (construct a c)) = accepted a
  /\ forall e,
       fst (construct a c) = Ok e ->
       valid e = true
       /\ base e = mkEmployee c (call_name a) (call_email a) IMAGE_PLACEHOLDER
       /\ match a, e with
          | NewExecutive _ _ y code, Executive s r =>
              _yearly s = y /\ code = PyInt (Role_value r)
          | NewManager _ _ y code, Manager s d =>
              _yearly s = y /\ code = PyInt (Department_value d)
          | NewPermanent _ _ w day, Permanent h day' => _hourly_wage h = w /\ day' = day
          | NewTemporary _ _ w day, Temporary h day' => _hourly_wage h = w /\ day' = day
          | _, _ => False
          end.
Proof.
  destruct (construct_outcome a c) as [Hok Hbuilt]. split; [exact Hok|].
  intros e He. exact (Hbuilt e He).
Qed.

Lemma construct_accepted_witness :
  exists e,
    fst (construct bob 11) = Ok e
    /\ valid e = true
    /\ base e = mkEmployee 11 "Bob" "bob@acme-machining.com" IMAGE_PLACEHOLDER.
Proof.
  eexists. split; [vm_compute; reflexivity|].
  destruct (proj2 (construct_accepted bob 11) _ eq_refl) as [Hv [Hb _]].
  split; [exact Hv | exact Hb].
Defined.

Lemma valid_with_base (e : instance) (b : Employee) :
  valid e = true -> valid_base b = true -> valid (with_base e b) = true.
Proof.
  unfold valid. intros H Hb. apply andb_true_iff in H as [_ Hp].
  destruct e; cbn [with_base base salaried_base hourly_base _yearly _hourly_wage] in *;
    now rewrite Hb, Hp.
Qed.

Lemma valid_base_of (e : instance) : valid e = true -> valid_base (base e) = true.
Proof. unfold valid. intros H. now apply andb_true_iff in H as [H _]. Qed.

Lemma name_setter_eq (s : string) (b : Employee) :
  name_setter s b =
  if Str.is_blank s then (Raise (ValueError "Name cannot be blank"), b)
  else (Ok tt, mkEmployee (id_number b) s (_email b) (_image b)).
Proof. unfold name_setter, name_check. run. destruct (Str.is_blank s); reflexivity. Qed.

Lemma image_setter_eq (s : string) (b : Employee) :
  image_setter s b =
  if Str.is_blank s then (Raise (ValueError "Image cannot be empty."), b)
  else (Ok tt, mkEmployee (id_number b) (_name b) (_email b) s).
Proof. unfold image_setter, image_check. run. destruct (Str.is_blank s); reflexivity. Qed.

Lemma email_setter_eq (s : string) (b : Employee) :
  email_setter s b =
  match email_check s with
  | Ok _ => (Ok tt, mkEmployee (id_number b) (_name b) s (_image b))
  | Raise x => (Raise x, b)
  end.
Proof. unfold email_setter. run. destruct (email_check s) as [[]|x]; reflexivity. Qed.

Lemma base_setters_valid (s : string) (b : Employee) :
  valid_base b = true ->
  valid_base (snd (name_setter s b)) = true
  /\ valid_base (snd (email_setter s b)) = true
  /\ valid_base (snd (image_setter s b)) = true.
Proof.
  intros H. rewrite name_setter_eq, email_setter_eq, image_setter_eq.
  unfold valid_base in *.
  apply andb_true_iff in H as [H Hi]. apply andb_true_iff in H as [Hn He].
  split; [|split].
  - destruct (Str.is_blank s) eqn:Hs; cbn [snd _name _email _image].
    + now rewrite Hn, He, Hi.
    + unfold name_check at 1. now rewrite Hs, He, Hi.
  - destruct (email_check s) as [[]|x] eqn:Hs; cbn [snd _name _email _image].
    + now rewrite Hn, Hs, Hi.
    + now rewrite Hn, He, Hi.
  - destruct (Str.is_blank s) eqn:Hs; cbn [snd _name _email _image].
    + now rewrite Hn, He, Hi.
    + unfold image_check. now rewrite Hn, He, Hs.
Qed.

Lemma pay_setters_valid (amount : float) :
  (forall s, is_ok (yearly_check (_yearly s)) = true ->
             is_ok (yearly_check (_yearly (snd (yearly_setter amount s)))) = true
             /\ salaried_base (snd (yearly_setter amount s)) = salaried_base s)
  /\ (forall h, is_ok (hourly_wage_check (_hourly_wage h)) = true ->
                is_ok (hourly_wage_check (_hourly_wage (snd (hourly_wage_setter amount h))))
                = true
                /\ hourly_base (snd (hourly_wage_setter amount h)) = hourly_base h).
Proof.
  split.
  - intros s H. unfold yearly_setter. run.
    destruct (yearly_check amount) as [[]|x] eqn:Ha; cbn [snd _yearly salaried_base];
      [rewrite Ha | rewrite H]; split; reflexivity.
  - intros h H. unfold hourly_wage_setter. run.
    destruct (hourly_wage_check amount) as [[]|x] eqn:Ha; cbn [snd _hourly_wage hourly_base];
      [rewrite Ha | rewrite H]; split; reflexivity.
Qed.

(** X2: on a record of any class, the name setter and the image setter
    refuse exactly the empty string, with [ValueError], and leave the
    record as it was; on any other string they store it and change no
    other field.  A valid record stays valid under the name, email and
    image setters, whatever they are given. *)
Theorem name_and_image_setters (e : instance) (s : string) :
  on_base (name_setter s) e
  = (if Str.is_blank s then (Raise (ValueError "Name cannot be blank"), e)
     else (Ok tt,
           with_base e (mkEmployee (id_number (base e)) s (_email (base e))
                          (_image (base e)))))
  /\ on_base (image_setter s) e
     = (if Str.is_blank s then (Raise (ValueError "Image cannot be empty."), e)
        else (Ok tt,
              with_base e (mkEmployee (id_number (base e)) (_name (base e))
                             (_email (base e)) s)))
  /\ (valid e = true ->
      valid (snd (on_base (name_setter s) e)) = true
      /\ valid (snd (on_base (email_setter s) e)) = true
      /\ valid (snd (on_base (image_setter s) e)) = true).
Proof.
  split; [|split].
  - unfold on_base, zoom. rewrite name_setter_eq.
    destruct (Str.is_blank s); [now rewrite with_base_same | reflexivity].
  - unfold on_base, zoom. rewrite image_setter_eq.
    destruct (Str.is_blank s); [now rewrite with_base_same | reflexivity].
  - intros H. destruct (base_setters_valid s (base e) (valid_base_of e H)) as [Hn [He Hi]].
    unfold on_base, zoom.
    destruct (name_setter s (base e)) as [r1 b1].
    destruct (email_setter s (base e)) as [r2 b2].
    destruct (image_setter s (base e)) as [r3 b3].
    cbn [snd] in *. repeat split; now apply valid_with_base.
Qed.

Lemma name_and_image_setters_witness :
  valid (Manager (mkSalaried (mkEmployee 3 "Bob" "bob@acme-machining.com" "b.png") 75000.5) HR)
  = true
  /\ valid (snd (on_base (name_setter "")
                   (Manager (mkSalaried (mkEmployee 3 "Bob" "bob@acme-machining.com" "b.png")
                               75000.5) HR))) = true
  /\ valid (snd (on_base (image_setter "new.png")
                   (Manager (mkSalaried (mkEmployee 3 "Bob" "bob@acme-machining.com" "b.png")
                               75000.5) HR))) = true.
Proof.
  split; [reflexivity|].
  destruct (proj2 (proj2 (name_and_image_setters
                            (Manager (mkSalaried
                                        (mkEmployee 3 "Bob" "bob@acme-machining.com" "b.png")
                                        75000.5) HR) ""))
              eq_refl) as [Hn _].
  destruct (proj2 (proj2 (name_and_image_setters
                            (Manager (mkSalaried
                                        (mkEmployee 3 "Bob" "bob@acme-machining.com" "b.png")
                                        75000.5) HR) "new.png"))
              eq_refl) as [_ [_ Hi]].
  split; [exact Hn | exact Hi].
Defined.

(* ================================================================= *)
(** ** Further properties: one row of the file *)

(** X3: a row with fewer than six fields, under one of the four tags
    or with fewer than four fields, raises, and [load_row] leaves the
    frame as it found it: no record is built or added and the counter
    is not touched.  The exception is [IndexError], except on a row of
    five fields whose pay field [float] refuses: the pay field is read
    before the sixth field is asked for, so the row raises the
    [ValueError] of [float]. *)
Theorem load_row_too_few_fields (row : list string) (f : frame) :
  (List.length row < 6)%nat ->
  known_tag row = true \/ (List.length row < 4)%nat ->
  snd (load_row row f) = f
  /\ fst (load_row row f)
     = (if (List.length row =? 5)%nat
        then match Num.float_of_str (nth 4 row "") with
             | Ok _ => Raise (IndexError "list index out of range")
             | Raise x => Raise x
             end
        else Raise (IndexError "list index out of range"))
  /\ (raises_ValueError (fst (load_row row f))
      = (List.length row =? 5)%nat && negb (is_ok (Num.float_of_str (nth 4 row "")))).
Proof.
  intros Hlen Htag.
  rewrite (load_row_lacks_field row f Hlen Htag). cbn [fst snd].
  split; [reflexivity|].
  destruct row as [|tag [|name [|email [|image [|amount [|last more]]]]]];
    try (split; reflexivity).
  - cbn [List.length Nat.eqb nth andb].
    pose proof (float_of_str_error amount) as He.
    destruct (Num.float_of_str amount) as [y|x]; [split; reflexivity|].
    split; [reflexivity|]. cbn [is_ok negb andb]. exact (He eq_refl).
Qed.

Lemma load_row_too_few_fields_witness :
  load_row ["Manager"; "Bob"; "bob@acme-machining.com"; "b.png"; "75000.5"]
    (mkFrame None (mkWorld 4 (built cara 3)))
  = (Raise (IndexError "list index out of range"), mkFrame None (mkWorld 4 (built cara 3)))
  /\ fst (load_row ["Temp"; "Dan"; "dan@acme-machining.com"; "d.png"; "fifteen"]
            (mkFrame None (mkWorld 4 (built cara 3))))
     = Raise (ValueError "could not convert string to float: 'fifteen'")
  /\ raises_ValueError
       (fst (load_row ["Temp"; "Dan"; "dan@acme-machining.com"; "d.png";
                       String "031" "20"]
               (mkFrame None (mkWorld 4 (built cara 3)))))
     = true.
Proof.
  split; [vm_compute; reflexivity|]. split.
  - exact (proj1 (proj2 (load_row_too_few_fields
                           ["Temp"; "Dan"; "dan@acme-machining.com"; "d.png"; "fifteen"]
                           (mkFrame None (mkWorld 4 (built cara 3)))
                           ltac:(simpl; lia) (or_introl eq_refl)))).
  - exact (proj2 (proj2 (load_row_too_few_fields
                           ["Temp"; "Dan"; "dan@acme-machining.com"; "d.png";
                            String "031" "20"]
                           (mkFrame None (mkWorld 4 (built cara 3)))
                           ltac:(simpl; lia) (or_introl eq_refl)))).
Defined.

(** X4: when a row of six fields or more under one of the four tags
    loads, the record added is valid and of the class of the tag
    ([Temporary] for [Temp]), is numbered with the value the counter
    had, which moves by one, and holds the second and third fields as
    name and email exactly as written, the placeholder image whatever
    the fourth field says, the fifth field read as a float, and the
    sixth field as it is (a date) or as the member whose code it
    spells (a role or a department). *)
Theorem load_row_builds_record
  (tag name email image amount last : string) (more : list string) (f f' : frame) :
  known_tag [tag] = true ->
  load_row (tag :: name :: email :: image :: amount :: last :: more) f = (Ok tt, f') ->
  exists e,
    f' = mkFrame (Some e)
           (mkWorld (Employee_id_number (globals f) + 1) (_data (globals f) ++ [e]))
    /\ valid e = true
    /\ type_name e = class_of_tag tag
    /\ base e = mkEmployee (Employee_id_number (globals f)) name email IMAGE_PLACEHOLDER
    /\ Num.float_of_str amount = Ok (pay_basis e)
    /\ match e with
       | Executive _ role => Num.int last = Ok (Role_value role)
       | Manager _ department => Num.int last = Ok (Department_value department)
       | Permanent _ day | Temporary _ day => day = last
       end.
Proof.
  intros Htag Hrow. rewrite (load_row_known _ _ _ _ _ _ _ _ Htag) in Hrow.
  destruct (Num.float_of_str amount) as [y|x]; [|discriminate].
  destruct (call_of_row tag name email y last) as [a|x] eqn:Hcall; [|discriminate].
  pose proof (construct_counter a (Employee_id_number (globals f))) as [Hn _].
  pose proof (construct_outcome a (Employee_id_number (globals f))) as [_ Hbuilt].
  destruct (construct a (Employee_id_number (globals f))) as [[e|x] n]; [|discriminate].
  cbn [fst snd] in Hn, Hbuilt. subst n. inversion Hrow; subst f'. clear Hrow.
  destruct (Hbuilt e eq_refl) as [Hv [Hb Hclass]].
  exists e. split; [reflexivity|]. split; [exact Hv|].
  unfold call_of_row, class_of_tag in *.
  destruct (known_tag_cases _ _ Htag) as [-> | [-> | [-> | ->]]];
    cbn [String.eqb Ascii.eqb Bool.eqb] in Hcall |- *;
    try (destruct (Num.int last) as [k|x]; [|discriminate]);
    inversion Hcall; subst a; cbn [call_name call_email] in Hb;
    destruct e as [s r | s d | h day | h day]; try contradiction;
    destruct Hclass as [Hy Hlast]; cbn [pay_basis type_name];
    (split; [reflexivity|]); (split; [exact Hb|]); (split; [now rewrite Hy|]);
    first [now inversion Hlast | exact Hlast].
Qed.

Lemma load_row_builds_record_witness :
  exists e,
    snd (load_row ["Temp"; "Dan Poe"; " dan@acme-machining.com"; "dan.png"; " 15 "; "soon"]
           (mkFrame None (mkWorld 8 [])))
    = mkFrame (Some e) (mkWorld 9 [e])
    /\ type_name e = "Temporary"
    /\ base e = mkEmployee 8 "Dan Poe" " dan@acme-machining.com" IMAGE_PLACEHOLDER
    /\ pay_basis e = 15%float.
Proof.
  destruct (load_row_builds_record "Temp" "Dan Poe" " dan@acme-machining.com" "dan.png"
              " 15 " "soon" [] (mkFrame None (mkWorld 8 []))
              (mkFrame
                 (Some (Temporary
                          (mkHourly (mkEmployee 8 "Dan Poe" " dan@acme-machining.com"
                                       IMAGE_PLACEHOLDER) 15) "soon"))
                 (mkWorld 9 [Temporary
                               (mkHourly (mkEmployee 8 "Dan Poe" " dan@acme-machining.com"
                                            IMAGE_PLACEHOLDER) 15) "soon"]))
              eq_refl ltac:(vm_compute; reflexivity))
    as [e [Hf [_ [Ht [Hb Hp]]]]].
  exists e. split.
  - transitivity (mkFrame
                    (Some (Temporary
                             (mkHourly (mkEmployee 8 "Dan Poe" " dan@acme-machining.com"
                                          IMAGE_PLACEHOLDER) 15) "soon"))
                    (mkWorld 9 [Temporary
                                  (mkHourly (mkEmployee 8 "Dan Poe" " dan@acme-machining.com"
                                               IMAGE_PLACEHOLDER) 15) "soon"]));
      [vm_compute; reflexivity | exact Hf].
  - split; [exact Ht|]. split; [exact Hb|].
    destruct Hp as [Hp _]. vm_compute in Hp. now inversion Hp.
Defined.

(* ================================================================= *)
(** ** Further properties: what a load keeps *)

Lemma roster_ok_later (c n : Z) (d : list instance) :
  c <= n -> roster_ok (mkWorld c d) -> roster_ok (mkWorld n d).
Proof.
  unfold roster_ok. cbn [_data Employee_id_number]. intros Hle H.
  eapply Forall_impl; [|exact H]. cbn beta. intros e [Hv Hi]. split; [exact Hv | lia].
Qed.

Lemma preserves_lift {A : Type} (r : result A) : preserves (lift r).
Proof. intros f H. split; [exact H | cbn; lia]. Qed.

Lemma preserves_ret {A : Type} (a : A) : preserves (ret a).
Proof. intros f H. split; [exact H | cbn; lia]. Qed.

Lemma preserves_raise {A : Type} (x : exn) : preserves (raise x : M frame A).
Proof. intros f H. split; [exact H | cbn; lia]. Qed.

Lemma preserves_bind {A B : Type} (m : M frame A) (k : A -> M frame B) :
  preserves m -> (forall a, preserves (k a)) -> preserves (bind m k).
Proof.
  intros Hm Hk f H. unfold bind. destruct (Hm f H) as [H1 Hle1].
  destruct (m f) as [[a|x] f1]; cbn [snd] in *; [|split; assumption].
  destruct (Hk a f1 H1) as [H2 Hle2]. split; [exact H2 | lia].
Qed.

Lemma preserves_if {A : Type} (b : bool) (m1 m2 : M frame A) :
  preserves m1 -> preserves m2 -> preserves (if b then m1 else m2).
Proof. destruct b; auto. Qed.

Lemma preserves_assign_new (a : call) : preserves (assign_new (construct a)).
Proof.
  intros [emp [c d]] [Hr He]. unfold assign_new.
  cbn [globals employee Employee_id_number _data] in *.
  destruct (construct_counter a c) as [Hn Hid].
  destruct (construct_outcome a c) as [_ Hbuilt].
  destruct (construct a c) as [[e|x] n]; cbn [fst snd] in *; subst n;
    (split; [|cbn; lia]); (split; [apply (roster_ok_later c); [lia | exact Hr]|]);
    cbn [employee globals Employee_id_number].
  - intros e' H. inversion H; subst e'. split; [apply (Hbuilt e eq_refl)|].
    unfold identity. rewrite (Hid e eq_refl). lia.
  - intros e' H. destruct (He e' H) as [Hv Hi]. split; [exact Hv | lia].
Qed.

Lemma preserves_commit : preserves (bind read_employee Gui_py.append).
Proof.
  intros [[e|] [c d]] [Hr He]; unfold bind, read_employee, Gui_py.append;
    cbn [employee globals Employee_id_number _data snd];
    (split; [|lia]); [|split; assumption].
  split; [|exact He]. unfold roster_ok in *. cbn [_data Employee_id_number] in *.
  apply Forall_app. split; [exact Hr|]. constructor; [|constructor].
  exact (He e eq_refl).
Qed.

Lemma load_row_preserves (row : list string) : preserves (load_row row).
Proof.
  unfold load_row.
  repeat first
    [ exact preserves_commit
    | apply preserves_bind; [|intros ?]
    | apply preserves_if
    | apply preserves_lift
    | apply preserves_ret
    | apply (preserves_assign_new (NewExecutive _ _ _ _))
    | apply (preserves_assign_new (NewManager _ _ _ _))
    | apply (preserves_assign_new (NewTemporary _ _ _ _))
    | apply (preserves_assign_new (NewPermanent _ _ _ _)) ].
Qed.

Lemma load_lines_preserves (lines : list string) : preserves (load_lines lines).
Proof.
  unfold load_lines. destruct (Csv.rows lines) as [rows err].
  apply preserves_bind.
  - unfold load_rows. induction rows as [|row rows IH].
    + apply preserves_ret.
    + apply preserves_bind; [apply load_row_preserves | intros _; exact IH].
  - intros _. destruct err; [apply preserves_raise | apply preserves_ret].
Qed.

(** X5: whatever the file holds, and whether the load succeeds or
    raises, a roster whose records are valid and numbered below the
    counter is left so: every record [load_file] adds is valid and
    numbered below the counter it leaves, and the counter is never
    lowered, so the next record built gets a number no record has. *)
Theorem load_file_keeps_roster_in_order (content : string) (w : world) :
  roster_ok w ->
  roster_ok (snd (load_file content w))
  /\ Employee_id_number w <= Employee_id_number (snd (load_file content w)).
Proof.
  intros H. unfold load_file.
  assert (Hf : frame_ok (mkFrame None w)) by (split; [exact H | discriminate]).
  destruct (load_lines_preserves (Csv.readlines content) _ Hf) as [[Hr _] Hle].
  destruct (load_lines (Csv.readlines content) (mkFrame None w)) as [r f].
  split; [exact Hr | exact Hle].
Qed.

Lemma load_file_keeps_roster_in_order_witness :
  roster_ok (mkWorld 5 (built cara 4))
  /\ roster_ok (snd (load_file unknown_tag_after_good_line (mkWorld 5 (built cara 4))))
  /\ List.length (_data (snd (load_file unknown_tag_after_good_line
                                (mkWorld 5 (built cara 4))))) = 3%nat.
Proof.
  assert (H : roster_ok (mkWorld 5 (built cara 4))).
  { constructor; [|constructor]. split; [reflexivity | vm_compute; reflexivity]. }
  split; [exact H|]. split; [|vm_compute; reflexivity].
  exact (proj1 (load_file_keeps_roster_in_order unknown_tag_after_good_line
                  (mkWorld 5 (built cara 4)) H)).
Defined.

(** What a row under one of the four tags does to the list and to the
    counter. *)
Lemma load_row_known_step (row : list string) (f : frame) :
  known_tag row = true ->
  match load_row row f with
  | (Ok _, f') =>
      exists e,
        _data (globals f') = _data (globals f) ++ [e]
        /\ identity e = Employee_id_number (globals f)
        /\ Employee_id_number (globals f') = Employee_id_number (globals f) + 1
  | (Raise _, f') => _data (globals f') = _data (globals f)
  end.
Proof.
  intros Htag.
  destruct (Nat.ltb_spec (List.length row) 6) as [Hshort|Hlong].
  { rewrite (load_row_lacks_field row f Hshort (or_introl Htag)).
    destruct row as [|a [|b [|c [|d [|amount [|last more]]]]]]; try reflexivity.
    destruct (Num.float_of_str amount); reflexivity. }
  destruct row as [|tag [|name [|email [|image [|amount [|last more]]]]]];
    try (simpl in Hlong; lia).
  rewrite (load_row_known tag name email image amount last more f Htag).
  destruct (Num.float_of_str amount) as [y|x]; [|reflexivity].
  destruct (call_of_row tag name email y last) as [a|x]; [|reflexivity].
  destruct (construct_counter a (Employee_id_number (globals f))) as [Hn Hid].
  destruct (construct a (Employee_id_number (globals f))) as [[e|x] n];
    cbn [fst snd] in *; [|reflexivity].
  exists e. cbn [globals _data Employee_id_number].
  split; [reflexivity|]. split; [exact (Hid e eq_refl) | exact Hn].
Qed.

Lemma load_rows_numbers (rows : list (list string)) (f : frame) :
  forallb known_tag rows = true ->
  exists news,
    _data (globals (snd (load_rows rows f))) = _data (globals f) ++ news
    /\ map identity news = count_from (Employee_id_number (globals f)) (List.length news)
    /\ (is_ok (fst (load_rows rows f)) = true ->
        List.length news = List.length rows
        /\ Employee_id_number (globals (snd (load_rows rows f)))
           = Employee_id_number (globals f) + Z.of_nat (List.length rows)).
Proof.
  revert f. induction rows as [|row rows IH]; intros f Hk.
  - exists []. cbn. rewrite app_nil_r. repeat split. lia.
  - cbn [forallb] in Hk. apply andb_true_iff in Hk as [Hrow Hrest].
    unfold load_rows. cbn [for_each]. unfold bind.
    pose proof (load_row_known_step row f Hrow) as Hstep.
    destruct (load_row row f) as [[u|x] f1].
    + destruct Hstep as [e [Hd [Hi Hc]]].
      destruct (IH f1 Hrest) as [news [Hd' [Hn' Hok']]]. unfold load_rows in *.
      destruct (for_each rows load_row f1) as [r f2]. cbn [fst snd] in *.
      exists (e :: news). rewrite Hd', Hd, <- app_assoc. split; [reflexivity|].
      cbn [map List.length count_from]. rewrite Hi, Hn', Hc. split; [reflexivity|].
      intros Hr. destruct (Hok' Hr) as [Hl Hc']. rewrite Hl, Hc', Hc. split; [reflexivity|].
      lia.
    + exists []. cbn [fst snd is_ok]. rewrite Hstep, app_nil_r.
      split; [reflexivity|]. split; [reflexivity | discriminate].
Qed.

Lemma count_from_bounds (c : Z) (n : nat) :
  Forall (fun i => c <= i) (count_from c n) /\ NoDup (count_from c n).
Proof.
  revert c. induction n as [|n IH]; intros c; cbn [count_from].
  - split; constructor.
  - destruct (IH (c + 1)) as [Hge Hnd]. split.
    + constructor; [lia|]. eapply Forall_impl; [|exact Hge]. cbn beta. intros; lia.
    + constructor; [|exact Hnd]. intros Hin.
      rewrite Forall_forall in Hge. specialize (Hge c Hin). lia.
Qed.

(** X6: when every row of the file carries one of the four tags, the
    records a load adds, up to the row that raises if one does, are
    numbered consecutively from the value the counter had, in file
    order; so identities that were distinct and below the counter stay
    distinct.  A load that succeeds adds one record per row and moves
    the counter by the number of rows. *)
Theorem load_file_numbers_records (content : string) (w : world) :
  forallb known_tag (fst (Csv.rows (Csv.readlines content))) = true ->
  exists news,
    _data (snd (load_file content w)) = _data w ++ news
    /\ map identity news = count_from (Employee_id_number w) (List.length news)
    /\ (Forall (fun e => identity e < Employee_id_number w) (_data w) ->
        NoDup (map identity (_data w)) ->
        NoDup (map identity (_data (snd (load_file content w)))))
    /\ (fst (load_file content w) = Ok tt ->
        List.length news = List.length (fst (Csv.rows (Csv.readlines content)))
        /\ Employee_id_number (snd (load_file content w))
           = Employee_id_number w
             + Z.of_nat (List.length (fst (Csv.rows (Csv.readlines content))))).
Proof.
  intros Hk. unfold load_file, load_lines.
  destruct (Csv.rows (Csv.readlines content)) as [rows err]. cbn [fst] in Hk.
  destruct (load_rows_numbers rows (mkFrame None w) Hk) as [news [Hd [Hn Hok]]].
  assert (Hdistinct :
            Forall (fun e => identity e < Employee_id_number w) (_data w) ->
            NoDup (map identity (_data w)) ->
            NoDup (map identity (_data w ++ news))).
  { intros Hlt Hnd. rewrite map_app.
    destruct (count_from_bounds (Employee_id_number w) (List.length news)) as [Hge Hnd'].
    apply NoDup_app; [exact Hnd | now rewrite Hn |].
    intros i Hin Hin'. rewrite Hn in Hin'.
    rewrite Forall_forall in Hge. specialize (Hge i Hin').
    apply in_map_iff in Hin as [e [<- He]].
    rewrite Forall_forall in Hlt. specialize (Hlt e He). lia. }
  unfold bind. destruct (load_rows rows (mkFrame None w)) as [[u|x] f];
    cbn [fst snd globals] in *; [destruct err as [x|]|];
    unfold raise, ret; cbn [fst snd];
    exists news; rewrite Hd;
    (split; [reflexivity|]); (split; [exact Hn|]); (split; [exact Hdistinct|]);
    try discriminate.
  intros _. exact (Hok eq_refl).
Qed.

Lemma load_file_numbers_records_witness :
  exists news,
    _data (snd (load_file two_good_lines (mkWorld 5 (built cara 4))))
    = built cara 4 ++ news
    /\ map identity news = [5; 6]
    /\ Employee_id_number (snd (load_file two_good_lines (mkWorld 5 (built cara 4)))) = 7.
Proof.
  destruct (load_file_numbers_records two_good_lines (mkWorld 5 (built cara 4)) eq_refl)
    as [news [Hd [Hn [_ Hok]]]].
  exists news. split; [exact Hd|].
  destruct (Hok ltac:(vm_compute; reflexivity)) as [Hl Hc].
  split; [|exact Hc].
  rewrite Hn, Hl. reflexivity.
Defined.

(* ================================================================= *)
(** ** Further properties: the saved file *)

Lemma concat_cons (x : string) (xs : list string) :
  String.concat "" (x :: xs) = (x ++ String.concat "" xs)%string.
Proof. destruct xs; cbn [String.concat]; [now rewrite append_nil_r | reflexivity]. Qed.

Lemma translate_line (l rest : list ascii) :
  forallb (fun c => negb (Csv.is_newline c)) l = true ->
  Csv.translate (l ++ Csv.LF :: rest) = l ++ Csv.LF :: Csv.translate rest.
Proof.
  induction l as [|c l IH]; [reflexivity|].
  cbn [forallb app Csv.translate]. intros H. apply andb_true_iff in H as [Hc Hl].
  unfold Csv.is_newline in Hc. apply negb_true_iff, orb_false_iff in Hc as [_ Hcr].
  now rewrite Hcr, IH.
Qed.

Lemma split_line (l rest : list ascii) (line : string) :
  forallb (fun c => negb (Csv.is_newline c)) l = true ->
  Csv.split_lines line (l ++ Csv.LF :: rest)
  = (line ++ string_of_list_ascii l ++ String Csv.LF "")%string :: Csv.split_lines "" rest.
Proof.
  revert line. induction l as [|c l IH]; intros line H.
  - reflexivity.
  - cbn [forallb] in H. apply andb_true_iff in H as [Hc Hl].
    unfold Csv.is_newline in Hc. apply negb_true_iff, orb_false_iff in Hc as [Hlf _].
    cbn [app Csv.split_lines]. rewrite Hlf, IH by exact Hl.
    cbn [string_of_list_ascii]. now rewrite append_assoc.
Qed.

Lemma readlines_first_line (body rest : string) :
  one_line body = true ->
  Csv.readlines ((body ++ String Csv.LF "") ++ rest)
  = (body ++ String Csv.LF "")%string :: Csv.readlines rest.
Proof.
  intros H. unfold Csv.readlines. rewrite !list_ascii_app.
  cbn [list_ascii_of_string]. rewrite <- app_assoc. cbn [app].
  rewrite translate_line, split_line by exact H.
  now rewrite string_of_list_ascii_of_string.
Qed.

Lemma plain_record_fields (e : instance) :
  plain_record e = true ->
  plain (_name (base e)) = true /\ plain (_email (base e)) = true
  /\ plain (_image (base e)) = true /\ plain (class_text e) = true.
Proof.
  unfold plain_record. intros H.
  apply andb_true_iff in H as [H H4]. apply andb_true_iff in H as [H H3].
  apply andb_true_iff in H as [H1 H2]. auto.
Qed.

(** The line of a record with plain fields: text with no line end,
    then the line feed. *)
Lemma save_line_body (e : instance) :
  plain_record e = true ->
  exists body, save_line e = (body ++ String Csv.LF "")%string /\ one_line body = true.
Proof.
  intros H. destruct (plain_record_fields e H) as [Pn [Pe [Pi Pc]]].
  destruct (plain_type_name e) as [Pt _].
  assert (Pg : plain (class_gap e ++ class_text e) = true)
    by (rewrite plain_app, Pc; destruct e; reflexivity).
  pose proof (plain_amount e) as Pa.
  apply plain_one_line in Pn, Pe, Pi, Pt, Pg, Pa.
  set (g4 := (amount_gap e ++ amount_text e)%string) in *.
  set (g5 := (class_gap e ++ class_text e)%string) in *.
  exists (type_name e ++ "," ++ _name (base e) ++ "," ++ (" " ++ _email (base e)) ++ ","
          ++ (" " ++ _image (base e)) ++ "," ++ g4 ++ "," ++ g5)%string.
  split.
  - rewrite save_line_fields. fold g4 g5. rewrite !append_assoc. reflexivity.
  - rewrite !one_line_app, Pt, Pn, Pa, Pg.
    change (one_line (" " ++ _email (base e))) with (one_line (_email (base e))).
    change (one_line (" " ++ _image (base e))) with (one_line (_image (base e))).
    now rewrite Pe, Pi.
Qed.

Lemma readlines_save_file (d : list instance) (c : Z) :
  forallb plain_record d = true ->
  Csv.readlines (save_file (mkWorld c d)) = map save_line d.
Proof.
  unfold save_file. cbn [_data].
  induction d as [|e d IH]; [reflexivity|].
  cbn [forallb map]. intros H. apply andb_true_iff in H as [He Hd].
  rewrite concat_cons. destruct (save_line_body e He) as [body [-> Hbody]].
  rewrite readlines_first_line by exact Hbody. now rewrite IH.
Qed.

Lemma rows_save_lines (d : list instance) :
  forallb plain_record d = true ->
  forallb fields_fit d = true ->
  Csv.rows (map save_line d) = (map saved_fields d, None).
Proof.
  unfold Csv.rows. induction d as [|e d IH]; [reflexivity|].
  cbn [forallb map]. intros H Hfit.
  apply andb_true_iff in H as [He Hd]. apply andb_true_iff in Hfit as [Hfe Hfd].
  destruct (plain_record_fields e He) as [Pn [Pe [Pi Pc]]].
  destruct (plain_type_name e) as [Pt Ht].
  cbn [Csv.rows_from]. rewrite save_line_fields.
  rewrite feed_plain_line; try assumption.
  - unfold fields_fit, saved_fields in Hfe. rewrite Hfe.
    cbn [Csv.st Csv.fields]. rewrite (IH Hd Hfd). reflexivity.
  - apply plain_amount.
  - rewrite plain_app, Pc. destruct e; reflexivity.
Qed.

(** X7: for a roster whose records hold no comma, quote or line end in
    their name, email, image and class field, the file [save_file]
    writes has one line per record; when moreover no field of a line
    is longer than the limit of the reader, the reader takes the file
    as one row of six fields per record, in roster order, so loading
    that file is the loop of [load_file] over those rows.  An empty
    roster is saved as an empty file, and an empty file loads as
    nothing. *)
Theorem saved_file_rows (w : world) :
  forallb plain_record (_data w) = true ->
  Csv.readlines (save_file w) = map save_line (_data w)
  /\ (forallb fields_fit (_data w) = true ->
      Csv.rows (Csv.readlines (save_file w)) = (map saved_fields (_data w), None)
      /\ forall w0,
           load_file (save_file w) w0
           = let (r, f) := load_rows (map saved_fields (_data w)) (mkFrame None w0) in
             (r, globals f))
  /\ (_data w = [] -> save_file w = "")
  /\ (forall w0, load_file "" w0 = (Ok tt, w0)).
Proof.
  destruct w as [c d]. cbn [_data]. intros H.
  pose proof (readlines_save_file d c H) as Hlines.
  split; [exact Hlines|]. split; [|split].
  - intros Hfit. split; [rewrite Hlines; exact (rows_save_lines d H Hfit)|].
    intros w0. unfold load_file, load_lines.
    rewrite Hlines, (rows_save_lines d H Hfit). run.
    destruct (load_rows (map saved_fields d) (mkFrame None w0)) as [[[]|x] f]; reflexivity.
  - intros ->. reflexivity.
  - intros [c0 d0]. reflexivity.
Qed.

Lemma saved_file_rows_witness :
  Csv.rows (Csv.readlines (save_file (mkWorld 2 (built ann 0 ++ built eve 1))))
  = ([["Executive"; "Ann"; " ann@acme-machining.com"; " ./images/placeholder.png";
       " 60000.0"; "CEO"];
      ["Permanent"; "Eve"; " eve@acme-machining.com"; " ./images/placeholder.png";
       "31.25"; "2019-09-01"]], None).
Proof.
  exact (proj1 (proj1 (proj2 (saved_file_rows (mkWorld 2 (built ann 0 ++ built eve 1))
                                eq_refl))
                  ltac:(vm_compute; reflexivity))).
Defined.

(* ================================================================= *)
(** ** Further properties: the edit forms *)

Lemma EmployeeForm_update_eq (fm : form Employee) :
  EmployeeForm_update_employee fm =
  let b := _employee fm in
  let report (e : Employee) (message : string) :=
    (Ok tt,
     mkForm e (_name_edit fm) (_email_edit fm) (_image_path_edit fm) (_pay_edit fm)
       (visible fm) (stdout fm ++ [message])) in
  let named := mkEmployee (id_number b) (_name_edit fm) (_email b) (_image b) in
  let mailed := mkEmployee (id_number b) (_name_edit fm) (_email_edit fm) (_image b) in
  if Str.is_blank (_name_edit fm) then report b "Name cannot be blank"
  else if Str.is_blank (_email_edit fm) then report named "Email cannot be blank"
  else if negb (Str.contains "@acme-machining.com" (_email_edit fm))
  then report named "Email must be from @acme-machining.com"
  else if Str.is_blank (_image_path_edit fm) then report mailed "Image cannot be empty."
  else (Ok tt,
        mkForm (mkEmployee (id_number b) (_name_edit fm) (_email_edit fm)
                  (_image_path_edit fm))
          (_name_edit fm) (_email_edit fm) (_image_path_edit fm) (_pay_edit fm)
          false (stdout fm)).
Proof.
  destruct fm as [b n e i p v out].
  unfold EmployeeForm_update_employee, try_ValueError, on_employee, setVisible, print,
    retarget.
  run.
  cbn [_employee _name_edit _email_edit _image_path_edit _pay_edit visible stdout].
  rewrite name_setter_eq.
  destruct (Str.is_blank n); [reflexivity|].
  cbn [_employee _name_edit _email_edit _image_path_edit _pay_edit visible stdout].
  rewrite email_setter_eq. unfold email_check.
  destruct (Str.is_blank e); [reflexivity|].
  destruct (negb (Str.contains "@acme-machining.com" e)); [reflexivity|].
  cbn [_employee _name_edit _email_edit _image_path_edit _pay_edit visible stdout].
  rewrite image_setter_eq.
  destruct (Str.is_blank i); reflexivity.
Qed.

(** X8: [EmployeeForm.update_employee] never raises.  It stores the
    name, the email and the image in that order and stops at the first
    one refused: the fields before it are changed, the refused one and
    those after it keep their values, the message of the setter that
    refused is printed, and no other, and the form stays as it was
    shown.  Only when all three pass is the form hidden, and then
    nothing is printed.  The identity and the line edits are never
    changed. *)
Theorem EmployeeForm_update_stops_at_first_refusal (fm : form Employee) :
  let fm' := snd (EmployeeForm_update_employee fm) in
  let name_ok := is_ok (name_check (_name_edit fm)) in
  let email_ok := is_ok (email_check (_email_edit fm)) in
  let image_ok := is_ok (image_check (_image_path_edit fm)) in
  fst (EmployeeForm_update_employee fm) = Ok tt
  /\ id_number (_employee fm') = id_number (_employee fm)
  /\ _name (_employee fm') = (if name_ok then _name_edit fm else _name (_employee fm))
  /\ _email (_employee fm')
     = (if name_ok && email_ok then _email_edit fm else _email (_employee fm))
  /\ _image (_employee fm')
     = (if name_ok && email_ok && image_ok then _image_path_edit fm
        else _image (_employee fm))
  /\ visible fm' = (if name_ok && email_ok && image_ok then false else visible fm)
  /\ stdout fm'
     = stdout fm
       ++ (if negb name_ok then ["Name cannot be blank"]
           else if negb email_ok then
                  [if Str.is_blank (_email_edit fm) then "Email cannot be blank"
                   else "Email must be from @acme-machining.com"]
           else if negb image_ok then ["Image cannot be empty."]
           else [])
  /\ (name_check (_name_edit fm) = Raise (ValueError "Name cannot be blank") \/ name_ok = true)
  /\ (email_check (_email_edit fm)
      = Raise (ValueError (if Str.is_blank (_email_edit fm) then "Email cannot be blank"
                           else "Email must be from @acme-machining.com"))
      \/ email_ok = true)
  /\ (image_check (_image_path_edit fm) = Raise (ValueError "Image cannot be empty.")
      \/ image_ok = true)
  /\ edits fm' = edits fm.
Proof.
  cbv zeta. rewrite EmployeeForm_update_eq. cbv zeta.
  unfold name_check, email_check, image_check, edits.
  form_cases fm;
    cbn [fst snd is_ok andb negb _employee visible stdout id_number _name _email _image
         _name_edit _email_edit _image_path_edit _pay_edit];
    rewrite ?app_nil_r;
    repeat match goal with
           | |- _ /\ _ => split
           end;
    try reflexivity;
    repeat match goal with
           | |- context [if ?b then _ else _] => destruct b
           end;
    auto.
Qed.

Lemma EmployeeForm_update_valid (fm : form Employee) :
  fst (EmployeeForm_update_employee fm) = Ok tt
  /\ edits (snd (EmployeeForm_update_employee fm)) = edits fm
  /\ id_number (_employee (snd (EmployeeForm_update_employee fm)))
     = id_number (_employee fm)
  /\ (valid_base (_employee fm) = true ->
      valid_base (_employee (snd (EmployeeForm_update_employee fm))) = true).
Proof.
  rewrite EmployeeForm_update_eq. cbv zeta. unfold valid_base, edits.
  unfold name_check, email_check, image_check.
  destruct (Str.is_blank (_name_edit fm)) eqn:Hn;
    [|destruct (Str.is_blank (_email_edit fm)) eqn:He;
      [|destruct (negb (Str.contains "@acme-machining.com" (_email_edit fm))) eqn:Hd;
        [|destruct (Str.is_blank (_image_path_edit fm)) eqn:Hi]]];
    cbn [fst snd is_ok andb _employee visible stdout id_number _name _email _image
         _name_edit _email_edit _image_path_edit _pay_edit];
    repeat split; try assumption;
    intros H; apply andb_true_iff in H as [H H3]; apply andb_true_iff in H as [H1 H2];
    rewrite ?Hn, ?He, ?Hd, ?Hi; cbn [is_ok andb]; rewrite ?H1, ?H2, ?H3; reflexivity.
Qed.

Lemma super_update_eq {E : Type} (view : E -> Employee) (update : E -> Employee -> E)
  (fm : form E) :
  super_update_employee view update fm
  = (Ok tt,
     retarget (snd (EmployeeForm_update_employee (retarget fm (view (_employee fm)))))
       (update (_employee fm)
          (_employee (snd (EmployeeForm_update_employee
                             (retarget fm (view (_employee fm)))))))).
Proof.
  unfold super_update_employee.
  pose proof (EmployeeForm_update_valid (retarget fm (view (_employee fm)))) as [Hok _].
  destruct (EmployeeForm_update_employee (retarget fm (view (_employee fm)))) as [r fm1].
  cbn [fst snd] in *. now subst r.
Qed.

Lemma float_of_str_raises (s : string) (x : exn) :
  Num.float_of_str s = Raise x -> exists message, x = ValueError message.
Proof.
  intros H. pose proof (float_of_str_error s) as He. rewrite H in He.
  specialize (He eq_refl). cbn in He. destruct x; try discriminate. eauto.
Qed.

Lemma SalariedForm_update_eq (fm : form Salaried) :
  SalariedForm_update_employee fm
  = let fb := snd (EmployeeForm_update_employee
                     (retarget fm (salaried_base (_employee fm)))) in
    (Ok tt,
     match parsed_pay yearly_check (_pay_edit fm) with
     | Some yearly =>
         mkForm (mkSalaried (_employee fb) yearly) (_name_edit fb) (_email_edit fb)
           (_image_path_edit fb) (_pay_edit fb) false (stdout fb ++ ["updated_yearly"])
     | None =>
         mkForm (mkSalaried (_employee fb) (_yearly (_employee fm))) (_name_edit fb)
           (_email_edit fb) (_image_path_edit fb) (_pay_edit fb) (visible fb)
           (stdout fb ++ ["Invalid data type"])
     end).
Proof.
  unfold SalariedForm_update_employee, try_ValueError. unfold bind at 1.
  rewrite super_update_eq.
  pose proof (EmployeeForm_update_valid (retarget fm (salaried_base (_employee fm))))
    as (_ & Hed & _).
  cbv zeta.
  destruct (snd (EmployeeForm_update_employee (retarget fm (salaried_base (_employee fm)))))
    as [b n e i p v out].
  unfold edits in Hed. cbn in Hed. injection Hed as Hn He Hi Hp.
  unfold parsed_pay. rewrite <- Hp.
  unfold retarget, on_employee, print, setVisible, yearly_setter, yearly_check. run.
  cbn [_employee _name_edit _email_edit _image_path_edit _pay_edit visible stdout
       salaried_base _yearly].
  destruct (Num.float_of_str p) as [y|x] eqn:Hf.
  - destruct (y <? 50000)%float; reflexivity.
  - destruct (float_of_str_raises _ _ Hf) as [message ->]. reflexivity.
Qed.

Lemma HourlyForm_update_eq (fm : form Hourly) :
  HourlyForm_update_employee fm
  = let fb := snd (EmployeeForm_update_employee
                     (retarget fm (hourly_base (_employee fm)))) in
    (Ok tt,
     match parsed_pay hourly_wage_check (_pay_edit fm) with
     | Some hourly_wage =>
         mkForm (mkHourly (_employee fb) hourly_wage) (_name_edit fb) (_email_edit fb)
           (_image_path_edit fb) (_pay_edit fb) false (stdout fb ++ ["updated_hourly"])
     | None =>
         mkForm (mkHourly (_employee fb) (_hourly_wage (_employee fm))) (_name_edit fb)
           (_email_edit fb) (_image_path_edit fb) (_pay_edit fb) (visible fb)
           (stdout fb ++ ["Invalid data type"])
     end).
Proof.
  unfold HourlyForm_update_employee, try_ValueError. unfold bind at 1.
  rewrite super_update_eq.
  pose proof (EmployeeForm_update_valid (retarget fm (hourly_base (_employee fm))))
    as (_ & Hed & _).
  cbv zeta.
  destruct (snd (EmployeeForm_update_employee (retarget fm (hourly_base (_employee fm)))))
    as [b n e i p v out].
  unfold edits in Hed. cbn in Hed. injection Hed as Hn He Hi Hp.
  unfold parsed_pay. rewrite <- Hp.
  unfold retarget, on_employee, print, setVisible, hourly_wage_setter, hourly_wage_check.
  run.
  cbn [_employee _name_edit _email_edit _image_path_edit _pay_edit visible stdout
       hourly_base _hourly_wage].
  destruct (Num.float_of_str p) as [y|x] eqn:Hf.
  - destruct ((y <? 15)%float || _); reflexivity.
  - destruct (float_of_str_raises _ _ Hf) as [message ->]. reflexivity.
Qed.

Lemma ExecutiveForm_update_eq (fm : form Salaried) :
  ExecutiveForm_update_employee fm
  = (Ok tt, snd (setVisible false (snd (SalariedForm_update_employee fm)))).
Proof.
  unfold ExecutiveForm_update_employee, try_ValueError. unfold bind.
  rewrite SalariedForm_update_eq. reflexivity.
Qed.

Lemma EmployeeForm_update_visible {E : Type} (fm : form E) (b : Employee) :
  visible (snd (EmployeeForm_update_employee (retarget fm b)))
  = (if is_ok (name_check (_name_edit fm)) && is_ok (email_check (_email_edit fm))
        && is_ok (image_check (_image_path_edit fm))
     then false else visible fm).
Proof.
  rewrite EmployeeForm_update_eq. cbv zeta. unfold name_check, email_check, image_check.
  form_fields. form_cases fm; reflexivity.
Qed.

(** X9: [SalariedForm.update_employee] never raises.  Whatever became
    of the name, email and image, it then reads the pay edit: a text
    that [float] reads and the salary test passes becomes the yearly
    salary, [updated_yearly] is printed and the form is hidden, also
    when a base field was refused; any other text leaves the salary,
    prints [Invalid data type] and leaves the form as the base update
    left it.  So the form stays shown only when a base field and the
    pay are both refused. *)
Theorem SalariedForm_update_applies_pay (fm : form Salaried) :
  let fb := snd (EmployeeForm_update_employee
                   (retarget fm (salaried_base (_employee fm)))) in
  let fm' := snd (SalariedForm_update_employee fm) in
  let pay := parsed_pay yearly_check (_pay_edit fm) in
  let base_ok := is_ok (name_check (_name_edit fm)) && is_ok (email_check (_email_edit fm))
                 && is_ok (image_check (_image_path_edit fm)) in
  fst (SalariedForm_update_employee fm) = Ok tt
  /\ salaried_base (_employee fm') = _employee fb
  /\ _yearly (_employee fm')
     = match pay with Some yearly => yearly | None => _yearly (_employee fm) end
  /\ visible fm'
     = (if base_ok || match pay with Some _ => true | None => false end
        then false else visible fm)
  /\ stdout fm'
     = stdout fb ++ [match pay with
                     | Some _ => "updated_yearly"
                     | None => "Invalid data type"
                     end]
  /\ edits fm' = edits fm.
Proof.
  cbv zeta. rewrite SalariedForm_update_eq. cbv zeta.
  pose proof (EmployeeForm_update_valid (retarget fm (salaried_base (_employee fm))))
    as (_ & Hed & _).
  pose proof (EmployeeForm_update_visible fm (salaried_base (_employee fm))) as Hv.
  destruct (parsed_pay yearly_check (_pay_edit fm)); form_fields;
    rewrite ?orb_true_r, ?orb_false_r; repeat split; try exact Hed; try exact Hv.

Qed.

Lemma SalariedForm_update_applies_pay_witness :
  _yearly (_employee
             (snd (SalariedForm_update_employee
                     (mkForm (mkSalaried (mkEmployee 3 "Bob" "bob@acme-machining.com" "b.png")
                                75000.5)
                        "" "bob@acme-machining.com" "b.png" "80000" true [])))) = 80000%float
  /\ visible (snd (SalariedForm_update_employee
                     (mkForm (mkSalaried (mkEmployee 3 "Bob" "bob@acme-machining.com" "b.png")
                                75000.5)
                        "" "bob@acme-machining.com" "b.png" "80000" true []))) = false
  /\ stdout (snd (SalariedForm_update_employee
                    (mkForm (mkSalaried (mkEmployee 3 "Bob" "bob@acme-machining.com" "b.png")
                               75000.5)
                       "" "bob@acme-machining.com" "b.png" "80000" true [])))
     = ["Name cannot be blank"; "updated_yearly"]
  /\ _yearly (_employee
                (snd (SalariedForm_update_employee
                        (mkForm (mkSalaried (mkEmployee 3 "Bob" "bob@acme-machining.com"
                                               "b.png") 75000.5)
                           "Bob" "bob@acme-machining.com" "b.png" (String "028" "80000") true
                           [])))) = 75000.5%float
  /\ stdout (snd (SalariedForm_update_employee
                    (mkForm (mkSalaried (mkEmployee 3 "Bob" "bob@acme-machining.com" "b.png")
                               75000.5)
                       "Bob" "bob@acme-machining.com" "b.png" (String "028" "80000") true [])))
     = ["Invalid data type"].
Proof.
  pose proof (SalariedForm_update_applies_pay
                (mkForm (mkSalaried (mkEmployee 3 "Bob" "bob@acme-machining.com" "b.png")
                           75000.5)
                   "" "bob@acme-machining.com" "b.png" "80000" true []))
    as (_ & _ & Hpay & Hshown & Hout & _).
  pose proof (SalariedForm_update_applies_pay
                (mkForm (mkSalaried (mkEmployee 3 "Bob" "bob@acme-machining.com" "b.png")
                           75000.5)
                   "Bob" "bob@acme-machining.com" "b.png" (String "028" "80000") true []))
    as (_ & _ & Hkept & _ & Hrefused & _).
  split; [rewrite Hpay; vm_compute; reflexivity|].
  split; [rewrite Hshown; vm_compute; reflexivity|].
  split; [rewrite Hout; vm_compute; reflexivity|].
  split; [rewrite Hkept; vm_compute; reflexivity|].
  rewrite Hrefused; vm_compute; reflexivity.
Defined.

(** X10: [HourlyForm.update_employee], which the forms of Permanent
    and Temporary records inherit, does the same with the hourly wage:
    it never raises, applies a pay text that reads as a float between
    15 and 99.99 whatever became of the base fields, prints
    [updated_hourly] and hides the form; any other text leaves the
    wage and prints [Invalid data type]. *)
Theorem HourlyForm_update_applies_pay (fm : form Hourly) :
  let fb := snd (EmployeeForm_update_employee
                   (retarget fm (hourly_base (_employee fm)))) in
  let fm' := snd (HourlyForm_update_employee fm) in
  let pay := parsed_pay hourly_wage_check (_pay_edit fm) in
  let base_ok := is_ok (name_check (_name_edit fm)) && is_ok (email_check (_email_edit fm))
                 && is_ok (image_check (_image_path_edit fm)) in
  fst (HourlyForm_update_employee fm) = Ok tt
  /\ hourly_base (_employee fm') = _employee fb
  /\ _hourly_wage (_employee fm')
     = match pay with Some wage => wage | None => _hourly_wage (_employee fm) end
  /\ visible fm'
     = (if base_ok || match pay with Some _ => true | None => false end
        then false else visible fm)
  /\ stdout fm'
     = stdout fb ++ [match pay with
                     | Some _ => "updated_hourly"
                     | None => "Invalid data type"
                     end]
  /\ edits fm' = edits fm.
Proof.
  cbv zeta. rewrite HourlyForm_update_eq. cbv zeta.
  pose proof (EmployeeForm_update_valid (retarget fm (hourly_base (_employee fm))))
    as (_ & Hed & _).
  pose proof (EmployeeForm_update_visible fm (hourly_base (_employee fm))) as Hv.
  destruct (parsed_pay hourly_wage_check (_pay_edit fm)); form_fields;
    rewrite ?orb_true_r, ?orb_false_r; repeat split; try exact Hed; try exact Hv.

Qed.

Lemma HourlyForm_update_applies_pay_witness :
  _hourly_wage (_employee
                  (snd (HourlyForm_update_employee
                          (mkForm (mkHourly (mkEmployee 4 "Eve" "eve@acme-machining.com"
                                               "e.png") 31.25)
                             "Eve" "eve@example.org" "e.png" " 20 " true [])))) = 20%float
  /\ stdout (snd (HourlyForm_update_employee
                    (mkForm (mkHourly (mkEmployee 4 "Eve" "eve@acme-machining.com" "e.png")
                               31.25)
                       "Eve" "eve@example.org" "e.png" " 20 " true [])))
     = ["Email must be from @acme-machining.com"; "updated_hourly"]
  /\ _hourly_wage (_employee
                     (snd (HourlyForm_update_employee
                             (mkForm (mkHourly (mkEmployee 4 "Eve" "eve@acme-machining.com"
                                                  "e.png") 31.25)
                                "Eve" "eve@acme-machining.com" "e.png" (String "028" "20")
                                true [])))) = 31.25%float
  /\ stdout (snd (HourlyForm_update_employee
                    (mkForm (mkHourly (mkEmployee 4 "Eve" "eve@acme-machining.com" "e.png")
                               31.25)
                       "Eve" "eve@acme-machining.com" "e.png" (String "028" "20") true [])))
     = ["Invalid data type"].
Proof.
  pose proof (HourlyForm_update_applies_pay
                (mkForm (mkHourly (mkEmployee 4 "Eve" "eve@acme-machining.com" "e.png") 31.25)
                   "Eve" "eve@example.org" "e.png" " 20 " true []))
    as (_ & _ & Hpay & _ & Hout & _).
  pose proof (HourlyForm_update_applies_pay
                (mkForm (mkHourly (mkEmployee 4 "Eve" "eve@acme-machining.com" "e.png") 31.25)
                   "Eve" "eve@acme-machining.com" "e.png" (String "028" "20") true []))
    as (_ & _ & Hkept & _ & Hrefused & _).
  split; [rewrite Hpay; vm_compute; reflexivity|].
  split; [rewrite Hout; vm_compute; reflexivity|].
  split; [rewrite Hkept; vm_compute; reflexivity|].
  rewrite Hrefused; vm_compute; reflexivity.
Defined.

(** X11: [ExecutiveForm.update_employee] never reaches its handler:
    the update of [SalariedForm] it calls has caught every ValueError.
    It changes the record and prints what that update does, and then
    hides the form in every case, also when the name, the email, the
    image and the pay were all refused. *)
Theorem ExecutiveForm_update_always_hides (fm : form Salaried) :
  fst (ExecutiveForm_update_employee fm) = Ok tt
  /\ visible (snd (ExecutiveForm_update_employee fm)) = false
  /\ _employee (snd (ExecutiveForm_update_employee fm))
     = _employee (snd (SalariedForm_update_employee fm))
  /\ stdout (snd (ExecutiveForm_update_employee fm))
     = stdout (snd (SalariedForm_update_employee fm))
  /\ edits (snd (ExecutiveForm_update_employee fm)) = edits fm
  /\ (forall message,
        In message (stdout (snd (ExecutiveForm_update_employee fm))) ->
        In message (stdout fm)
        \/ In message ["updated_yearly"; "Invalid data type"; "Name cannot be blank";
                       "Email cannot be blank"; "Email must be from @acme-machining.com";
                       "Image cannot be empty."]).
Proof.
  rewrite ExecutiveForm_update_eq. rewrite SalariedForm_update_eq. cbv zeta.
  pose proof (EmployeeForm_update_valid (retarget fm (salaried_base (_employee fm))))
    as (_ & Hed & _).
  pose proof (EmployeeForm_update_eq (retarget fm (salaried_base (_employee fm)))) as Heq.
  cbv zeta in Heq.
  destruct (EmployeeForm_update_employee (retarget fm (salaried_base (_employee fm))))
    as [r fb].
  cbn [snd] in *.
  assert (Hout : forall message, In message (stdout fb) ->
                   In message (stdout fm)
                   \/ In message ["Name cannot be blank"; "Email cannot be blank";
                                  "Email must be from @acme-machining.com";
                                  "Image cannot be empty."]).
  { revert Heq. form_fields.
    form_cases fm; intros Heq; inversion Heq; subst; cbn [stdout]; intros m Hm;
      try (apply in_app_or in Hm as [Hm | [<- | []]]); auto; right; simpl; auto. }
  unfold setVisible.
  destruct (parsed_pay yearly_check (_pay_edit fm)); form_fields;
    (repeat split; try exact Hed);
    intros m Hm; apply in_app_or in Hm as [Hm | [<- | []]];
    try (right; simpl; now auto);
    destruct (Hout m Hm) as [H | H]; [now left | right; simpl in *; tauto
                                     | now left | right; simpl in *; tauto].
Qed.

Lemma parsed_pay_passes (check : float -> result unit) (text : string) (amount : float) :
  parsed_pay check text = Some amount -> is_ok (check amount) = true.
Proof.
  unfold parsed_pay. destruct (Num.float_of_str text) as [x|]; [|discriminate].
  destruct (is_ok (check x)) eqn:H; [|discriminate]. now intros [= <-].
Qed.

Lemma update_employee_eq (fm : form instance) :
  update_employee fm
  = (Ok tt,
     let fb := snd (EmployeeForm_update_employee (retarget fm (base (_employee fm)))) in
     let paid (check : float -> result unit) (old : float) :=
       match parsed_pay check (_pay_edit fm) with Some amount => amount | None => old end in
     let shown (check : float -> result unit) :=
       match parsed_pay check (_pay_edit fm) with Some _ => false | None => visible fb end in
     let printed (check : float -> result unit) (done : string) :=
       stdout fb ++ [match parsed_pay check (_pay_edit fm) with
                     | Some _ => done
                     | None => "Invalid data type"
                     end] in
     let result (e : instance) (v : bool) (out : list string) :=
       mkForm e (_name_edit fb) (_email_edit fb) (_image_path_edit fb) (_pay_edit fb) v out in
     match _employee fm with
     | Executive s role =>
         result (Executive (mkSalaried (_employee fb) (paid yearly_check (_yearly s))) role)
           false (printed yearly_check "updated_yearly")
     | Manager s department =>
         result (Manager (mkSalaried (_employee fb) (paid yearly_check (_yearly s)))
                   department)
           (shown yearly_check) (printed yearly_check "updated_yearly")
     | Permanent h hired_date =>
         result (Permanent (mkHourly (_employee fb)
                              (paid hourly_wage_check (_hourly_wage h))) hired_date)
           (shown hourly_wage_check) (printed hourly_wage_check "updated_hourly")
     | Temporary h last_day =>
         result (Temporary (mkHourly (_employee fb)
                              (paid hourly_wage_check (_hourly_wage h))) last_day)
           (shown hourly_wage_check) (printed hourly_wage_check "updated_hourly")
     end).
Proof.
  destruct fm as [e n em i p v out]. unfold update_employee, on_part.
  destruct e as [s r | s d | h day | h day]; cbn [_employee];
    rewrite ?ExecutiveForm_update_eq, ?SalariedForm_update_eq, ?HourlyForm_update_eq;
    cbv zeta; unfold setVisible; form_fields; cbn [base];
    match goal with
    | |- context [parsed_pay ?c p] => destruct (parsed_pay c p)
    end; reflexivity.
Qed.

(** X12: updating through the form of the record's class never raises
    and never changes the identity, the class, the role, department or
    date of the record or the texts of the line edits; and a record
    whose fields pass their tests still has fields that pass them
    afterwards, whatever the line edits hold. *)
Theorem update_employee_keeps_record_valid (fm : form instance) :
  let fm' := snd (update_employee fm) in
  fst (update_employee fm) = Ok tt
  /\ identity (_employee fm') = identity (_employee fm)
  /\ type_name (_employee fm') = type_name (_employee fm)
  /\ class_text (_employee fm') = class_text (_employee fm)
  /\ edits fm' = edits fm
  /\ (valid (_employee fm) = true -> valid (_employee fm') = true).
Proof.
  cbv zeta. rewrite update_employee_eq. cbv zeta.
  pose proof (EmployeeForm_update_valid (retarget fm (base (_employee fm))))
    as (_ & Hed & Hid & Hvalid).
  unfold identity, valid.
  destruct (_employee fm) as [s r | s d | h day | h day];
    form_fields; cbn [base type_name class_text salaried_base hourly_base _yearly
                      _hourly_wage] in *;
    (repeat split; try exact Hed; try exact Hid);
    intros H; apply andb_true_iff in H as [Hb Hp]; rewrite (Hvalid Hb);
    cbn [andb];
    match goal with
    | |- context [parsed_pay ?c ?p] =>
        destruct (parsed_pay c p) eqn:Hpay;
        [exact (parsed_pay_passes _ _ _ Hpay) | exact Hp]
    end.
Qed.

Lemma update_employee_keeps_record_valid_witness :
  valid (Permanent (mkHourly (mkEmployee 4 "Eve" "eve@acme-machining.com" "e.png") 31.25)
           "2019-09-01") = true
  /\ valid (_employee
              (snd (update_employee
                      (mkForm (Permanent (mkHourly (mkEmployee 4 "Eve"
                                                      "eve@acme-machining.com" "e.png")
                                            31.25) "2019-09-01")
                         "Eve Adams" "eve@example.org" "" "120" true [])))) = true.
Proof.
  split; [reflexivity|].
  apply (update_employee_keeps_record_valid
           (mkForm (Permanent (mkHourly (mkEmployee 4 "Eve" "eve@acme-machining.com" "e.png")
                                 31.25) "2019-09-01")
              "Eve Adams" "eve@example.org" "" "120" true [])).
  reflexivity.
Defined.



(* ================================================================= *)
(** ** Further properties: the rows of the roster *)

(** X14: [data_to_rows] returns its rows only for a roster of
    Executive and Manager records, one row of five cells per record in
    order: identity, class name, name, salary as text, email.  A
    roster with a Permanent or Temporary record makes it fail at the
    first of them, with the AttributeError for the attribute [hourly]
    that such a record does not have. *)
Theorem data_to_rows_needs_salaried (data : list instance) :
  match data_to_rows data with
  | Returned rows =>
      forallb isinstance_Salaried data = true
      /\ rows = map (fun e => [IntCell (identity e); StrCell (type_name e);
                               StrCell (_name (base e));
                               StrCell (Num.repr (pay_basis e));
                               StrCell (_email (base e))]) data
  | AttributeError message =>
      exists before e after,
        data = before ++ e :: after
        /\ forallb isinstance_Salaried before = true
        /\ isinstance_Salaried e = false
        /\ message = ("'" ++ type_name e ++ "' object has no attribute 'hourly'")%string
  end.
Proof.
  induction data as [|e rest IH].
  - split; reflexivity.
  - destruct e as [s r | s d | h day | h day]; cbn [data_to_rows].
    1,2: destruct (data_to_rows rest) as [rows | message];
      [ destruct IH as [Hall ->]; split; [exact Hall | reflexivity]
      | destruct IH as (before & e & after & -> & Hb & He & ->);
        eexists (_ :: before), e, after; repeat split; auto ].
    1,2: eexists [], _, rest; repeat split.
Qed.
